(** * Level-break scanner: [src/http/get-quotes/index.ts]

    A shallow embedding of the request handler and of its helpers
    ([determineLevelBreaks], [parseResults], [validateAuthorization]),
    followed by the properties stated about them. *)

From Stdlib Require Import ZArith Ascii String Floats.SpecFloat.
From stdpp Require Import base option list strings gmap.

Local Open Scope string_scope.

(** ** JavaScript values used by the program *)

Module JS.

(** A JavaScript Number is an IEEE 754 binary64 value; [spec_float] is the
    Standard Library's specification of such values (zeros, infinities,
    NaN, finite numbers). *)
Abbreviation number := spec_float.

Definition NaN : number := S754_nan.

(** The double nearest to an integer (used to write concrete prices). *)
Definition num (z : Z) : number := binary_normalize 53 1024 z 0 false.

(** [ToNumber] on the value of a property read: a missing property reads as
    [undefined], which converts to NaN. *)
Definition ToNumber (v : option number) : number :=
  match v with
  | Some x => x
  | None => NaN
  end.

(** [IsLessThan(x, y)] on Numbers ([Number::lessThan]): [None] stands for
    the result [undefined], given when an operand is NaN. *)
Definition IsLessThan (x y : number) : option bool :=
  match SFcompare x y with
  | None => None
  | Some Lt => Some true
  | Some _ => Some false
  end.

(** [x <= y]: let r be IsLessThan(y, x); the result is false when r is
    true or undefined, and true otherwise. *)
Definition le (x y : number) : bool :=
  match IsLessThan y x with
  | Some false => true
  | _ => false
  end.

(** [x >= y]: let r be IsLessThan(x, y); the result is false when r is
    true or undefined, and true otherwise. *)
Definition ge (x y : number) : bool :=
  match IsLessThan x y with
  | Some false => true
  | _ => false
  end.

(** Truthiness of a string-or-undefined value: [undefined] and the empty
    string are falsy. *)
Definition truthy (v : option string) : bool :=
  match v with
  | Some s => negb (String.eqb s "")
  | None => false
  end.

(** [v || d] for a string-or-undefined [v] and a string [d]. *)
Definition or_else (v : option string) (d : string) : string :=
  match v with
  | Some s => if truthy v then s else d
  | None => d
  end.

(** [s.split(sep)] for a separator of one character: the pieces between
    the occurrences of [sep], in order; never the empty array. *)
Fixpoint split (sep : ascii) (s : string) : list string :=
  match s with
  | EmptyString => [EmptyString]
  | String ch rest =>
      if Ascii.eqb ch sep then EmptyString :: split sep rest
      else match split sep rest with
           | piece :: pieces => String ch piece :: pieces
           | [] => [String ch EmptyString]
           end
  end.

(** Strict equality [===] of two string-or-undefined values. *)
Definition strict_eq (a b : option string) : bool := bool_decide (a = b).

(** Is the Number finite (neither NaN nor an infinity)? *)
Definition is_finite (x : number) : bool :=
  match x with
  | S754_zero _ | S754_finite _ _ _ => true
  | S754_infinity _ | S754_nan => false
  end.

End JS.

Abbreviation number := JS.number.

(** ** Data model *)

(** [LevelBreak]: the optional fields are [None] when the property is not
    set on the object. *)
Record LevelBreak := {
  broke : bool;
  resistance : option number;
  support : option number;
  closedBroken : option bool;
}.

(** The JSON object an upstream endpoint answers with, restricted to the
    properties the program reads: the quote's [o], [h], [l], [c] and the
    scan's [levels].  A property missing from the answer is [None]. *)
Record ApiData := {
  o : option number;
  h : option number;
  l : option number;
  c : option number;
  levels : option (list number);
}.

(** What [fetchQuotes] and [fetchSupportResistance] resolve to. *)
Record ApiResult := {
  data : ApiData;
  result : string;
}.

(** [ParsedResults]: [quotes] is the spread copy of the quote answer;
    [supportResistance] is [None] when the scan answer had no [levels]. *)
Record ParsedResults := {
  quotes : ApiData;
  supportResistance : option (list number);
}.

(** ** [determineLevelBreaks] *)

(** The callback given to [map]: the entry computed for one level. *)
Definition levelEntry (results : ParsedResults) (level : number) : LevelBreak :=
  let brokeSupport :=
    JS.le (JS.ToNumber (o (quotes results))) level
    && JS.ge (JS.ToNumber (h (quotes results))) level in
  let brokeResistance :=
    JS.ge (JS.ToNumber (o (quotes results))) level
    && JS.le (JS.ToNumber (l (quotes results))) level in
  if brokeSupport then
    {| broke := true;
       resistance := Some level;
       support := None;
       closedBroken := Some (JS.ge (JS.ToNumber (c (quotes results))) level) |}
  else if brokeResistance then
    {| broke := true;
       resistance := None;
       support := Some level;
       closedBroken := Some (JS.le (JS.ToNumber (c (quotes results))) level) |}
  else
    {| broke := false; resistance := None; support := None;
       closedBroken := None |}.

(** [None] is the TypeError raised by [.map] on an undefined
    [supportResistance]. *)
Definition determineLevelBreaks (results : ParsedResults)
  : option (list LevelBreak) :=
  lvls ← supportResistance results;
  Some (List.filter broke (List.map (levelEntry results) lvls)).

(** ** [parseResults] *)

(** [None] is the TypeError raised when reading [.data] of [undefined],
    that is when no element carries the tag looked for. *)
Definition parseResults (results : list ApiResult) : option ParsedResults :=
  let quotes := head (List.filter (λ r, String.eqb (result r) "quotes") results) in
  let supportResistance :=
    head (List.filter (λ r, String.eqb (result r) "supportResistance") results) in
  q ← quotes;
  sr ← supportResistance;
  Some {| quotes := data q; supportResistance := levels (data sr) |}.

(** ** Requests, responses and the process environment *)

(** The two variables read from the environment when the module loads;
    [None] when the variable is not set. *)
Record Env := {
  CRON_TOKEN : option string;
  FINNHUB_AUTH_TOKEN : option string;
}.

Record Request := {
  headers : gmap string string;
  queryStringParameters : gmap string string;
}.

(** [ScanResult]: what the handler collects for one symbol. *)
Record ScanResult := {
  symbol : string;
  brokenLevels : list LevelBreak;
}.

(** A JSON document, as [JSON.stringify] lays it out. *)
#[warnings="-register-all"]
Inductive json :=
| JNull
| JBool (b : bool)
| JNumber (x : number)
| JString (s : string)
| JArray (items : list json)
| JObject (members : list (string * json)).

(** The body of a response: a literal text, or a serialized document. *)
Inductive Body :=
| Text (s : string)
| Json (doc : json).

Record Response := {
  statusCode : Z;
  responseHeaders : gmap string string;
  body : Body;
}.

(** *** [JSON.stringify] on the values the handler serializes *)

(** A Number that is not finite is serialized as [null]; both zeros are
    written [0], so the sign of [-0] is not kept. *)
Definition stringifyNumber (x : number) : json :=
  match x with
  | S754_zero _ => JNumber (S754_zero false)
  | S754_finite _ _ _ => JNumber x
  | S754_infinity _ | S754_nan => JNull
  end.

(** The members of an object, in the order the properties were set;
    a property that is not set gives no member. *)
Definition member {A} (key : string) (f : A → json) (v : option A)
  : list (string * json) :=
  match v with
  | Some a => [(key, f a)]
  | None => []
  end.

Definition stringifyLevelBreak (e : LevelBreak) : json :=
  JObject ([("broke", JBool (broke e))]
           ++ member "resistance" stringifyNumber (resistance e)
           ++ member "support" stringifyNumber (support e)
           ++ member "closedBroken" JBool (closedBroken e)).

Definition stringifyScanResult (r : ScanResult) : json :=
  JObject [("symbol", JString (symbol r));
           ("brokenLevels", JArray (List.map stringifyLevelBreak (brokenLevels r)))].

Definition stringifyResults (results : list ScanResult) : json :=
  JArray (List.map stringifyScanResult results).

(** *** The responses the handler builds *)

Definition textResponse (status : Z) (text : string) : Response :=
  {| statusCode := status;
     responseHeaders := {[ "content-type" := "text/plain; charset=utf8" ]};
     body := Text text |}.

Definition jsonResponse (results : list ScanResult) : Response :=
  {| statusCode := 200;
     responseHeaders := {[ "content-type" := "application/json; charset=utf8" ]};
     body := Json (stringifyResults results) |}.

Definition FINNHUB_API_BASE : string := "https://finnhub.io/api/v1".

(** The fixed list of symbols scanned by every invocation. *)
Definition symbols : list string :=
  ["AAPL"; "AMD"; "CRM"; "MSFT"; "NIO"; "NVDA"; "TSLA"; "XPEV"].

Section Program.

Variable env : Env.

(** [stringify] of the querystring module, on the list of the object's
    properties. *)
Variable stringify : list (string * string) → string.

(** [fetch(url, {headers: {'x-finnhub-token': t}})] followed by
    [response.json()]: the parsed answer, or [None] when either promise
    rejects. *)
Variable fetch : string → option string → option ApiData.

(** ** [validateAuthorization] *)
Definition validateAuthorization (headers : gmap string string) : bool :=
  let token := JS.split " " (JS.or_else (headers !! "authorization") "") !! 1%nat in
  JS.strict_eq token (CRON_TOKEN env).

(** ** [fetchQuotes] and [fetchSupportResistance] *)
Definition fetchQuotes (symbol resolution : string) : option ApiResult :=
  let query := stringify [("resolution", resolution); ("symbol", symbol)] in
  let url := FINNHUB_API_BASE ++ "/quote?" ++ query in
  d ← fetch url (FINNHUB_AUTH_TOKEN env);
  Some {| data := d; result := "quotes" |}.

Definition fetchSupportResistance (symbol resolution : string)
  : option ApiResult :=
  let query := stringify [("resolution", resolution); ("symbol", symbol)] in
  let url := FINNHUB_API_BASE ++ "/scan/support-resistance?" ++ query in
  d ← fetch url (FINNHUB_AUTH_TOKEN env);
  Some {| data := d; result := "supportResistance" |}.

(** ** [handler] *)

(** The asynchronous callback mapped over [symbols]; [None] when its
    promise rejects. *)
Definition scanSymbol (symbol : string) : option ScanResult :=
  results ← mapM id [fetchQuotes symbol "D"; fetchSupportResistance symbol "D"];
  parsedResults ← parseResults results;
  brokenLevels ← determineLevelBreaks parsedResults;
  Some {| symbol := symbol; brokenLevels := brokenLevels |}.

(** [None] when the promise returned by the handler rejects. *)
Definition handler (request : Request) : option Response :=
  if negb (JS.truthy (CRON_TOKEN env)) then
    Some (textResponse 500 "config not setup")
  else if negb (validateAuthorization (headers request)) then
    Some (textResponse 401 "unauthorized")
  else
    let resolution := queryStringParameters request !! "resolution" in
    let symbol := queryStringParameters request !! "symbol" in
    if negb (JS.truthy symbol) then
      Some (textResponse 412 "missing symbol")
    else if negb (JS.truthy resolution) then
      Some (textResponse 412 "missing resolution")
    else
      scanned ← mapM scanSymbol symbols;
      let results :=
        List.filter (λ r, negb (length (brokenLevels r) =? 0)%nat) scanned in
      Some (jsonResponse results).

End Program.

(** ** Vocabulary of the statements *)

(** The four prices of the day, as the comparisons see them. *)
Definition quoteO (results : ParsedResults) : number := JS.ToNumber (o (quotes results)).
Definition quoteH (results : ParsedResults) : number := JS.ToNumber (h (quotes results)).
Definition quoteL (results : ParsedResults) : number := JS.ToNumber (l (quotes results)).
Definition quoteC (results : ParsedResults) : number := JS.ToNumber (c (quotes results)).

(** [o <= L <= h] and [o >= L >= l], with the IEEE 754 order [SFleb]. *)
Definition supportBreakCondition (results : ParsedResults) (L : number) : Prop :=
  SFleb (quoteO results) L = true ∧ SFleb L (quoteH results) = true.

Definition resistanceBreakCondition (results : ParsedResults) (L : number) : Prop :=
  SFleb L (quoteO results) = true ∧ SFleb (quoteL results) L = true.

(** A support-break entry for [L] sets [resistance]; a resistance-break
    entry for [L] sets [support]. *)
Definition supportBreakOf (L : number) (e : LevelBreak) : Prop :=
  broke e = true ∧ resistance e = Some L.

Definition resistanceBreakOf (L : number) (e : LevelBreak) : Prop :=
  broke e = true ∧ support e = Some L.

(** The level an entry carries, in whichever field it is set. *)
Definition levelOf (e : LevelBreak) : option number :=
  match resistance e with
  | Some x => Some x
  | None => support e
  end.



(** Does the character occur in the string? *)
Fixpoint contains (ch : ascii) (s : string) : bool :=
  match s with
  | EmptyString => false
  | String x rest => Ascii.eqb x ch || contains ch rest
  end.

(** The shape of a serialized break entry: an object whose first member is
    [broke: true]. *)
Definition isBreakEntry (j : json) : Prop :=
  ∃ others, j = JObject (("broke", JBool true) :: others).

(** The shape of a serialized record of the response: a symbol, and a
    [brokenLevels] array with at least one element, all of them break
    entries. *)
Definition isScanRecord (j : json) : Prop :=
  ∃ sym first others,
    j = JObject [("symbol", JString sym);
                 ("brokenLevels", JArray (first :: others))]
    ∧ Forall isBreakEntry (first :: others).

(** ** Sample inputs *)

Definition quoteOf (qo qh ql qc : Z) : ApiData :=
  {| o := Some (JS.num qo); h := Some (JS.num qh); l := Some (JS.num ql);
     c := Some (JS.num qc); levels := None |}.

Definition levelsOf (lvls : list Z) : ApiData :=
  {| o := None; h := None; l := None; c := None;
     levels := Some (JS.num <$> lvls) |}.

(** Open 100, high 110, low 95, close 108; one level at 105. *)
Definition sampleUp : ParsedResults :=
  {| quotes := quoteOf 100 110 95 108; supportResistance := Some [JS.num 105] |}.

(** Open 100, high 102, low 90, close 92; one level at 95. *)
Definition sampleDown : ParsedResults :=
  {| quotes := quoteOf 100 102 90 92; supportResistance := Some [JS.num 95] |}.

(** The day opens exactly on the level: open 100, level 100. *)
Definition sampleOpenOnLevel : ParsedResults :=
  {| quotes := quoteOf 100 110 95 108; supportResistance := Some [JS.num 100] |}.

(** The entry computed from [sampleUp]. *)
Definition sampleUpEntry : LevelBreak :=
  {| broke := true; resistance := Some (JS.num 105); support := None;
     closedBroken := Some true |}.

(** The entry computed from [sampleDown]. *)
Definition sampleDownEntry : LevelBreak :=
  {| broke := true; resistance := None; support := Some (JS.num 95);
     closedBroken := Some true |}.

(** A flat day far from its one level: open 100, high 101, low 99,
    close 100, level 200. *)
Definition sampleQuiet : ParsedResults :=
  {| quotes := quoteOf 100 101 99 100; supportResistance := Some [JS.num 200] |}.

(** A scan answer without [levels]. *)
Definition sampleNoLevels : ParsedResults :=
  {| quotes := quoteOf 100 110 95 108; supportResistance := None |}.

Definition sampleEnv : Env :=
  {| CRON_TOKEN := Some "s3cret"; FINNHUB_AUTH_TOKEN := Some "key" |}.

Definition unsetEnv : Env :=
  {| CRON_TOKEN := None; FINNHUB_AUTH_TOKEN := Some "key" |}.

Definition sampleStringify (props : list (string * string)) : string :=
  String.concat "&" ((λ kv, kv.1 ++ "=" ++ kv.2) <$> props).

(** An upstream that answers every call with the same quote and level. *)
Definition sampleFetch (url : string) (token : option string) : option ApiData :=
  Some {| o := Some (JS.num 100); h := Some (JS.num 110); l := Some (JS.num 95);
          c := Some (JS.num 108); levels := Some [JS.num 105] |}.

(** An upstream whose every answer is a flat day far from its one level:
    open 100, high 101, low 99, close 100, level 200. *)
Definition quietFetch (url : string) (token : option string) : option ApiData :=
  Some {| o := Some (JS.num 100); h := Some (JS.num 101); l := Some (JS.num 99);
          c := Some (JS.num 100); levels := Some [JS.num 200] |}.

Definition requestOf (auth : option string) (sym res : option string) : Request :=
  {| headers := from_option (λ v, {[ "authorization" := v ]}) ∅ auth;
     queryStringParameters :=
       from_option (λ v, {[ "symbol" := v ]}) ∅ sym
       ∪ from_option (λ v, {[ "resolution" := v ]}) ∅ res |}.

Definition sampleRequest : Request :=
  requestOf (Some "Bearer s3cret") (Some "AAPL") (Some "D").

(** What the handler answers to [sampleRequest] with [sampleFetch]. *)
Definition sampleResponse : Response :=
  jsonResponse
    ((λ s, {| symbol := s; brokenLevels := [sampleUpEntry] |}) <$> symbols).

(** ** Further sample inputs *)

(** Two levels inside the day's range of [sampleUp], one above it, and
    the first one twice. *)
Definition sampleManyLevels : ParsedResults :=
  {| quotes := quoteOf 100 110 95 108;
     supportResistance :=
       Some [JS.num 105; JS.num 97; JS.num 120; JS.num 105] |}.

(** The quote of [sampleUp] without its open price. *)
Definition sampleNoOpen : ParsedResults :=
  {| quotes := {| o := None; h := Some (JS.num 110); l := Some (JS.num 95);
                  c := Some (JS.num 108); levels := None |};
     supportResistance := Some [JS.num 105] |}.

(** The quote of [sampleUp] with a close below the level. *)
Definition sampleUpWeakClose : ParsedResults :=
  {| quotes := quoteOf 100 110 95 101; supportResistance := Some [JS.num 105] |}.

(** Answers of the two endpoints, and one with a tag of its own. *)
Definition sampleQuoteResult : ApiResult :=
  {| data := quoteOf 100 110 95 108; result := "quotes" |}.

Definition otherQuoteResult : ApiResult :=
  {| data := quoteOf 1 2 3 4; result := "quotes" |}.

Definition sampleLevelsResult : ApiResult :=
  {| data := levelsOf [105%Z]; result := "supportResistance" |}.

Definition strayResult : ApiResult :=
  {| data := levelsOf [7%Z]; result := "news" |}.

(** No secret in the environment. *)
Definition bareHeaders : gmap string string :=
  {[ "authorization" := "anything" ]}.

(** An upstream that fails on the levels of one symbol. *)
Definition flakyFetch (url : string) (token : option string) : option ApiData :=
  if String.eqb url
       "https://finnhub.io/api/v1/scan/support-resistance?resolution=D&symbol=NIO"
  then None
  else sampleFetch url token.

(** An upstream that answers only calls that carry the key and ask for a
    daily quote or daily levels. *)
Definition strictFetch (url : string) (token : option string) : option ApiData :=
  if bool_decide (token = Some "key")
     && (String.prefix "https://finnhub.io/api/v1/quote?resolution=D&symbol=" url
         || String.prefix
              "https://finnhub.io/api/v1/scan/support-resistance?resolution=D&symbol="
              url)
  then sampleFetch url token
  else None.

(** Another request that passes the four checks. *)
Definition otherRequest : Request :=
  requestOf (Some "Basic s3cret and more") (Some "ZZZ") (Some "W").

(** ** Further vocabulary *)

(** The handler returns a plain-text response with this status code and
    this body, read off the fields of the response. *)
Definition answersText (outcome : option Response) (status : Z)
    (text : string) : Prop :=
  ∃ resp, outcome = Some resp
          ∧ statusCode resp = status
          ∧ body resp = Text text
          ∧ responseHeaders resp !! "content-type"
            = Some "text/plain; charset=utf8".

(** A level zero with the sign bit set, in a day that trades through it. *)
Definition sampleMinusZero : ParsedResults :=
  {| quotes := quoteOf (-1) 1 (-2) 1;
     supportResistance := Some [S754_zero true] |}.

(** The entry computed from [sampleMinusZero]. *)
Definition sampleMinusZeroEntry : LevelBreak :=
  {| broke := true; resistance := Some (S754_zero true); support := None;
     closedBroken := Some true |}.

(** The test of [levelEntry] for "some branch returns a break", with the
    IEEE 754 order: [o <= L <= h] or [o >= L >= l]. *)
Definition reported (results : ParsedResults) (L : number) : bool :=
  SFleb (quoteO results) L && SFleb L (quoteH results)
  || SFleb L (quoteO results) && SFleb (quoteL results) L.

(** A key whose lexicographic order is the order of the Numbers that are
    not NaN: sign class first, then exponent and mantissa, both negated
    for negative numbers. *)
Definition rank (x : number) : option (Z * Z * Z) :=
  match x with
  | S754_nan => None
  | S754_zero _ => Some (0, 0, 0)%Z
  | S754_infinity true => Some (-2, 0, 0)%Z
  | S754_infinity false => Some (2, 0, 0)%Z
  | S754_finite false m e => Some (1, e, Z.pos m)%Z
  | S754_finite true m e => Some (-1, - e, Z.neg m)%Z
  end.

Definition lexle (a b : Z * Z * Z) : Prop :=
  (a.1.1 < b.1.1
   ∨ (a.1.1 = b.1.1
      ∧ (a.1.2 < b.1.2 ∨ (a.1.2 = b.1.2 ∧ a.2 ≤ b.2))))%Z.

Definition rankle (x y : number) : Prop :=
  match rank x, rank y with
  | Some a, Some b => lexle a b
  | _, _ => False
  end.

(** An entry without its [closedBroken] field. *)
Definition withoutClose (e : LevelBreak) : LevelBreak :=
  {| broke := broke e; resistance := resistance e; support := support e;
     closedBroken := None |}.

(** The two addresses called for a symbol. *)
Definition quoteUrl (stringify : list (string * string) → string)
    (symbol : string) : string :=
  FINNHUB_API_BASE ++ "/quote?"
  ++ stringify [("resolution", "D"); ("symbol", symbol)].

Definition levelsUrl (stringify : list (string * string) → string)
    (symbol : string) : string :=
  FINNHUB_API_BASE ++ "/scan/support-resistance?"
  ++ stringify [("resolution", "D"); ("symbol", symbol)].

(** Is the element tagged with one of the two tags [parseResults] reads? *)
Definition tagged (tag : string) (r : ApiResult) : bool :=
  String.eqb (result r) tag.

(** * Properties *)

(** ** The comparison operators and the IEEE 754 order *)

Lemma SFcompare_swap (x y : number) :
  SFcompare y x = CompOpp <$> SFcompare x y.
Proof.
  destruct x as [sx|sx| |sx mx ex], y as [sy|sy| |sy my ey]; simpl;
    try reflexivity;
    try (destruct sx; reflexivity);
    try (destruct sy; reflexivity);
    try (destruct sx, sy; reflexivity).
  assert (Hm : Pos.compare_cont Eq my mx = CompOpp (Pos.compare_cont Eq mx my))
    by (rewrite Pos.compare_cont_antisym; reflexivity).
  destruct sx, sy; simpl; try reflexivity;
    rewrite (Z.compare_antisym ex ey), Hm;
    destruct (ex ?= ey)%Z; simpl; try reflexivity;
    destruct (Pos.compare_cont Eq mx my); reflexivity.
Qed.

(** [x <= y] is the IEEE 754 [SFleb x y]. *)
Lemma le_SFleb (x y : number) : JS.le x y = SFleb x y.
Proof.
  unfold JS.le, JS.IsLessThan, SFleb. rewrite SFcompare_swap.
  destruct (SFcompare x y) as [[]|]; reflexivity.
Qed.

(** [x >= y] is the IEEE 754 [SFleb y x]. *)
Lemma ge_SFleb (x y : number) : JS.ge x y = SFleb y x.
Proof. rewrite <- le_SFleb. reflexivity. Qed.

(** A comparison with NaN, hence with a missing price, is false. *)
Lemma le_NaN_l (y : number) : JS.le JS.NaN y = false.
Proof. rewrite le_SFleb. destruct y; reflexivity. Qed.

Lemma le_NaN_r (x : number) : JS.le x JS.NaN = false.
Proof. rewrite le_SFleb. destruct x; reflexivity. Qed.

(** ** The entry of one level *)

Lemma levelEntry_support (results : ParsedResults) (L : number) :
  supportBreakCondition results L →
  levelEntry results L =
    {| broke := true; resistance := Some L; support := None;
       closedBroken := Some (SFleb L (quoteC results)) |}.
Proof.
  intros [Ho Hh]. unfold levelEntry.
  rewrite !le_SFleb, !ge_SFleb. fold (quoteO results) (quoteH results).
  rewrite Ho, Hh. reflexivity.
Qed.

Lemma levelEntry_resistance (results : ParsedResults) (L : number) :
  ¬ supportBreakCondition results L →
  resistanceBreakCondition results L →
  levelEntry results L =
    {| broke := true; resistance := None; support := Some L;
       closedBroken := Some (SFleb (quoteC results) L) |}.
Proof.
  intros Hs [Ho Hl]. unfold levelEntry.
  rewrite !le_SFleb, !ge_SFleb.
  fold (quoteO results) (quoteH results) (quoteL results).
  rewrite Ho, Hl.
  destruct (SFleb (quoteO results) L && SFleb L (quoteH results)) eqn:E.
  - apply andb_true_iff in E. contradiction.
  - reflexivity.
Qed.

Lemma levelEntry_none (results : ParsedResults) (L : number) :
  ¬ supportBreakCondition results L →
  ¬ resistanceBreakCondition results L →
  levelEntry results L =
    {| broke := false; resistance := None; support := None;
       closedBroken := None |}.
Proof.
  intros Hs Hr. unfold levelEntry.
  rewrite !le_SFleb, !ge_SFleb.
  fold (quoteO results) (quoteH results) (quoteL results).
  destruct (SFleb (quoteO results) L && SFleb L (quoteH results)) eqn:E.
  { apply andb_true_iff in E. contradiction. }
  destruct (SFleb L (quoteO results) && SFleb (quoteL results) L) eqn:E'.
  { apply andb_true_iff in E'. contradiction. }
  reflexivity.
Qed.

Lemma supportBreakCondition_dec (results : ParsedResults) (L : number) :
  supportBreakCondition results L ∨ ¬ supportBreakCondition results L.
Proof.
  unfold supportBreakCondition.
  destruct (SFleb (quoteO results) L), (SFleb L (quoteH results));
    (by left) || (right; intros []; discriminate).
Qed.

Lemma resistanceBreakCondition_dec (results : ParsedResults) (L : number) :
  resistanceBreakCondition results L ∨ ¬ resistanceBreakCondition results L.
Proof.
  unfold resistanceBreakCondition.
  destruct (SFleb L (quoteO results)), (SFleb (quoteL results) L);
    (by left) || (right; intros []; discriminate).
Qed.

(** The three cases of [levelEntry], by the two conditions. *)
Lemma levelEntry_cases (results : ParsedResults) (L : number) :
  (supportBreakCondition results L ∧
   levelEntry results L =
     {| broke := true; resistance := Some L; support := None;
        closedBroken := Some (SFleb L (quoteC results)) |})
  ∨ (¬ supportBreakCondition results L ∧ resistanceBreakCondition results L ∧
     levelEntry results L =
       {| broke := true; resistance := None; support := Some L;
          closedBroken := Some (SFleb (quoteC results) L) |})
  ∨ (¬ supportBreakCondition results L ∧ ¬ resistanceBreakCondition results L ∧
     levelEntry results L =
       {| broke := false; resistance := None; support := None;
          closedBroken := None |}).
Proof.
  destruct (supportBreakCondition_dec results L) as [Hs|Hs].
  - left. split; [done|]. by apply levelEntry_support.
  - destruct (resistanceBreakCondition_dec results L) as [Hr|Hr].
    + right; left. split; [done|]. split; [done|].
      by apply levelEntry_resistance.
    + right; right. split; [done|]. split; [done|].
      by apply levelEntry_none.
Qed.

(** The entries kept are the entries of the levels, those with [broke]. *)
Lemma determineLevelBreaks_elem (results : ParsedResults) (lvls : list number)
    (out : list LevelBreak) (e : LevelBreak) :
  supportResistance results = Some lvls →
  determineLevelBreaks results = Some out →
  e ∈ out ↔ ∃ L, L ∈ lvls ∧ e = levelEntry results L ∧ broke e = true.
Proof.
  intros Hl Hd. unfold determineLevelBreaks in Hd. rewrite Hl in Hd.
  simpl in Hd. injection Hd as <-.
  rewrite list_elem_of_In, filter_In, in_map_iff. split.
  - intros [(L & <- & HL) Hb]. exists L. by rewrite list_elem_of_In.
  - intros (L & HL & -> & Hb). split; [|done].
    exists L. split; [done|]. by apply list_elem_of_In.
Qed.




(** ** Claims about [determineLevelBreaks] *)

(** C1. For every quote and every level [L] of the level sequence,
    [determineLevelBreaks] returns an output, and that output holds a
    support-break entry for [L] (an entry with [broke] true whose
    [resistance] field is [L]) if and only if [o <= L] and [L <= h]: for
    the prices [o] and [h] of the quote themselves when both are there,
    and never when one of them is missing. *)
Theorem support_break_iff (results : ParsedResults) (lvls : list number)
    (L : number) :
  supportResistance results = Some lvls →
  L ∈ lvls →
  ∃ out, determineLevelBreaks results = Some out ∧
    ((∃ e, e ∈ out ∧ supportBreakOf L e) ↔ supportBreakCondition results L)
    ∧ (∀ qo qh, o (quotes results) = Some qo → h (quotes results) = Some qh →
         ((∃ e, e ∈ out ∧ broke e = true ∧ resistance e = Some L)
          ↔ SFleb qo L = true ∧ SFleb L qh = true))
    ∧ (o (quotes results) = None ∨ h (quotes results) = None →
       ¬ ∃ e, e ∈ out ∧ broke e = true ∧ resistance e = Some L).
Proof.
  intros Hl HL.
  destruct (determineLevelBreaks results) as [out|] eqn:Hd;
    [|unfold determineLevelBreaks in Hd; rewrite Hl in Hd; discriminate].
  exists out. split; [reflexivity|].
  assert (Hiff : (∃ e, e ∈ out ∧ supportBreakOf L e)
                 ↔ supportBreakCondition results L).
  { split.
    - intros (e & He & Hb & Hr).
      apply (determineLevelBreaks_elem results lvls out e Hl Hd) in He
        as (L' & _ & -> & _).
      destruct (levelEntry_cases results L')
        as [[Hs E]|[(_ & _ & E)|(_ & _ & E)]];
        rewrite E in Hr; simpl in Hr; [|discriminate..].
      by injection Hr as <-.
    - intros Hs. exists (levelEntry results L).
      rewrite (determineLevelBreaks_elem results lvls out _ Hl Hd).
      rewrite (levelEntry_support results L Hs).
      split; [|by split].
      exists L. rewrite (levelEntry_support results L Hs). by repeat split. }
  split; [exact Hiff|]. split.
  - intros qo qh Ho Hh.
    unfold supportBreakOf, supportBreakCondition, quoteO, quoteH in Hiff.
    rewrite Ho, Hh in Hiff. exact Hiff.
  - intros Hmiss Hex. apply Hiff in Hex as [H1 H2].
    unfold quoteO, quoteH in H1, H2.
    destruct Hmiss as [Ho|Hh].
    + rewrite Ho in H1. discriminate H1.
    + rewrite Hh in H2. destruct L; discriminate H2.
Qed.

Lemma support_break_iff_sample :
  supportResistance sampleUp = Some [JS.num 105]
  ∧ JS.num 105 ∈ [JS.num 105]
  ∧ o (quotes sampleUp) = Some (JS.num 100)
  ∧ h (quotes sampleUp) = Some (JS.num 110)
  ∧ SFleb (JS.num 100) (JS.num 105) = true
  ∧ SFleb (JS.num 105) (JS.num 110) = true
  ∧ determineLevelBreaks sampleUp = Some [sampleUpEntry]
  ∧ broke sampleUpEntry = true
  ∧ resistance sampleUpEntry = Some (JS.num 105)
  ∧ ∃ e, e ∈ [sampleUpEntry] ∧ broke e = true
         ∧ resistance e = Some (JS.num 105).
Proof.
  split; [reflexivity|]. split; [apply list_elem_of_here|].
  split; [reflexivity|]. split; [reflexivity|].
  split; [reflexivity|]. split; [reflexivity|].
  split; [reflexivity|]. split; [reflexivity|]. split; [reflexivity|].
  destruct (support_break_iff sampleUp [JS.num 105] (JS.num 105))
    as (out & Hd & _ & Hprices & _);
    [reflexivity|apply list_elem_of_here|].
  assert (E : out = [sampleUpEntry])
    by (vm_compute in Hd; injection Hd as <-; reflexivity).
  rewrite <- E.
  apply (Hprices (JS.num 100) (JS.num 110)); [reflexivity|reflexivity|].
  split; reflexivity.
Defined.

(** C2, as the code has it. For every quote and every level [L] of the
    level sequence, the output holds a resistance-break entry for [L] (an
    entry with [broke] true whose [support] field is [L]) if and only if
    [o >= L] and [L >= l] hold while [o <= L <= h] does not. *)
Theorem resistance_break_iff (results : ParsedResults) (lvls : list number)
    (L : number) :
  supportResistance results = Some lvls →
  L ∈ lvls →
  ∃ out, determineLevelBreaks results = Some out ∧
    ((∃ e, e ∈ out ∧ resistanceBreakOf L e)
     ↔ resistanceBreakCondition results L ∧ ¬ supportBreakCondition results L).
Proof.
  intros Hl HL.
  destruct (determineLevelBreaks results) as [out|] eqn:Hd;
    [|unfold determineLevelBreaks in Hd; rewrite Hl in Hd; discriminate].
  exists out. split; [reflexivity|]. split.
  - intros (e & He & Hb & Hr).
    apply (determineLevelBreaks_elem results lvls out e Hl Hd) in He
      as (L' & _ & -> & _).
    destruct (levelEntry_cases results L')
      as [[Hs E]|[(Hs & Hc & E)|(_ & _ & E)]];
      rewrite E in Hr; simpl in Hr; [discriminate| |discriminate].
    by injection Hr as <-.
  - intros [Hc Hs]. exists (levelEntry results L).
    rewrite (determineLevelBreaks_elem results lvls out _ Hl Hd).
    rewrite (levelEntry_resistance results L Hs Hc).
    split; [|by split].
    exists L. rewrite (levelEntry_resistance results L Hs Hc). by repeat split.
Qed.

Lemma resistance_break_iff_sample :
  supportResistance sampleDown = Some [JS.num 95]
  ∧ JS.num 95 ∈ [JS.num 95]
  ∧ ∃ out, determineLevelBreaks sampleDown = Some out ∧
      ((∃ e, e ∈ out ∧ resistanceBreakOf (JS.num 95) e)
       ↔ resistanceBreakCondition sampleDown (JS.num 95)
         ∧ ¬ supportBreakCondition sampleDown (JS.num 95)).
Proof.
  split; [reflexivity|]. split; [apply list_elem_of_here|].
  apply (resistance_break_iff sampleDown [JS.num 95] (JS.num 95));
    [reflexivity|apply list_elem_of_here].
Defined.

(** C2, as stated, fails when the day opens on the level: with open 100,
    high 110, low 95 and the level 100, [o >= L] and [L >= l] hold, yet the
    only entry of the output is the support-break one. *)
Lemma resistance_break_iff_fails_open_on_level :
  supportResistance sampleOpenOnLevel = Some [JS.num 100]
  ∧ JS.num 100 ∈ [JS.num 100]
  ∧ ¬ ∃ out, determineLevelBreaks sampleOpenOnLevel = Some out ∧
        ((∃ e, e ∈ out ∧ resistanceBreakOf (JS.num 100) e)
         ↔ resistanceBreakCondition sampleOpenOnLevel (JS.num 100)).
Proof.
  split; [reflexivity|]. split; [apply list_elem_of_here|].
  intros (out & Hd & Hiff).
  vm_compute in Hd. injection Hd as <-.
  destruct Hiff as [_ Hback].
  destruct Hback as (e & He & _ & Hsup).
  { split; vm_compute; reflexivity. }
  apply list_elem_of_singleton in He. subst e. discriminate Hsup.
Qed.

(** C3. Whenever the output holds a support-break entry for [L], its
    [closedBroken] field is set, and is true if and only if [c >= L];
    whenever it holds a resistance-break entry for [L], its [closedBroken]
    field is set, and is true if and only if [c <= L]. *)
Theorem closedBroken_iff (results : ParsedResults) (out : list LevelBreak)
    (e : LevelBreak) (L : number) :
  determineLevelBreaks results = Some out →
  e ∈ out →
  (supportBreakOf L e →
   ∃ b, closedBroken e = Some b ∧ (b = true ↔ SFleb L (quoteC results) = true))
  ∧ (resistanceBreakOf L e →
     ∃ b, closedBroken e = Some b ∧ (b = true ↔ SFleb (quoteC results) L = true)).
Proof.
  intros Hd He.
  destruct (supportResistance results) as [lvls|] eqn:Hl;
    [|unfold determineLevelBreaks in Hd; rewrite Hl in Hd; discriminate].
  destruct (proj1 (determineLevelBreaks_elem results lvls out e Hl Hd) He)
    as (L' & _ & Ee & _).
  subst e.
  destruct (levelEntry_cases results L')
    as [[_ E]|[(_ & _ & E)|(_ & _ & E)]]; rewrite E; split;
    intros [Hb Hf]; simpl in Hb, Hf; try discriminate;
    injection Hf as ->; eexists; (split; [reflexivity|done]).
Qed.

Lemma closedBroken_iff_sample :
  determineLevelBreaks sampleUp = Some [sampleUpEntry]
  ∧ sampleUpEntry ∈ [sampleUpEntry]
  ∧ supportBreakOf (JS.num 105) sampleUpEntry
  ∧ ∃ b, closedBroken sampleUpEntry = Some b
         ∧ (b = true ↔ SFleb (JS.num 105) (quoteC sampleUp) = true).
Proof.
  split; [reflexivity|]. split; [apply list_elem_of_here|].
  split; [split; reflexivity|].
  apply (closedBroken_iff sampleUp [sampleUpEntry] sampleUpEntry (JS.num 105));
    [reflexivity|apply list_elem_of_here|split; reflexivity].
Defined.



(** ** [split] on one character *)

Lemma split_not_nil (sep : ascii) (s : string) : JS.split sep s ≠ [].
Proof.
  induction s as [|ch rest IH]; simpl; [done|].
  destruct (Ascii.eqb ch sep); [done|].
  by destruct (JS.split sep rest).
Qed.

(** A string without the separator is returned whole. *)
Lemma split_without_sep (sep : ascii) (s : string) :
  contains sep s = false → JS.split sep s = [s].
Proof.
  induction s as [|ch rest IH]; simpl; [done|].
  intros H. apply orb_false_iff in H as [Hch Hrest].
  rewrite Hch, (IH Hrest). reflexivity.
Qed.

(** The first piece ends at the first separator. *)
Lemma split_at_first_sep (sep : ascii) (a b : string) :
  contains sep a = false →
  JS.split sep (a ++ String sep b)%string = a :: JS.split sep b.
Proof.
  induction a as [|ch rest IH]; simpl.
  - intros _. by rewrite Ascii.eqb_refl.
  - intros H. apply orb_false_iff in H as [Hch Hrest].
    rewrite Hch, (IH Hrest). reflexivity.
Qed.

(** A string with the separator decomposes at its first occurrence. *)
Lemma contains_first_sep (sep : ascii) (s : string) :
  contains sep s = true →
  ∃ a b, contains sep a = false ∧ s = (a ++ String sep b)%string.
Proof.
  induction s as [|ch rest IH]; simpl; [done|].
  destruct (Ascii.eqb ch sep) eqn:Hch; simpl.
  - intros _. apply Ascii.eqb_eq in Hch as ->.
    by exists EmptyString, rest.
  - intros H. destruct (IH H) as (a & b & Ha & ->).
    exists (String ch a), b. simpl. by rewrite Hch, Ha.
Qed.

(** With a separator in the string there is a second piece. *)
Lemma split_second_piece (sep : ascii) (s : string) :
  contains sep s = true → ∃ t, JS.split sep s !! 1%nat = Some t.
Proof.
  intros H. destruct (contains_first_sep sep s H) as (a & b & Ha & ->).
  rewrite (split_at_first_sep sep a b Ha). simpl.
  destruct (JS.split sep b) as [|t ts] eqn:E; [by apply split_not_nil in E|].
  by exists t.
Qed.

(** The piece that follows the first separator runs to the next one, or
    to the end of the string. *)
Lemma split_second_piece_is (sep : ascii) (scheme tok tail : string) :
  contains sep scheme = false →
  contains sep tok = false →
  tail = EmptyString ∨ (∃ more, tail = String sep more) →
  JS.split sep (scheme ++ String sep (tok ++ tail))%string !! 1%nat = Some tok.
Proof.
  intros Hs Ht Htail. rewrite (split_at_first_sep sep scheme _ Hs). simpl.
  destruct Htail as [->|[more ->]].
  - assert (E : (tok ++ "")%string = tok).
    { clear. induction tok as [|ch rest IH]; [done|].
      change (String ch (rest ++ "")%string = String ch rest). by f_equal. }
    rewrite E. by rewrite (split_without_sep sep tok Ht).
  - by rewrite (split_at_first_sep sep tok more Ht).
Qed.

(** ** [validateAuthorization] *)

(** The header value, or the empty string, is what gets split. *)
Lemma or_else_empty (v : option string) :
  JS.or_else v "" = default "" v.
Proof.
  destruct v as [s|]; [|reflexivity]. simpl.
  destruct (String.eqb_spec s ""); by subst.
Qed.

Lemma strict_eq_true (a b : option string) :
  JS.strict_eq a b = true ↔ a = b.
Proof. unfold JS.strict_eq. apply bool_decide_eq_true. Qed.

Lemma strict_eq_false (a b : option string) :
  JS.strict_eq a b = false ↔ a ≠ b.
Proof. unfold JS.strict_eq. apply bool_decide_eq_false. Qed.

(** With a header present, the token is the second piece of its value. *)
Lemma validateAuthorization_present (env : Env) (hdrs : gmap string string)
    (v : string) :
  hdrs !! "authorization" = Some v →
  validateAuthorization env hdrs
  = JS.strict_eq (JS.split " " v !! 1%nat) (CRON_TOKEN env).
Proof.
  intros H. unfold validateAuthorization. by rewrite H, or_else_empty.
Qed.

(** Without the header there is no token. *)
Lemma validateAuthorization_absent (env : Env) (hdrs : gmap string string) :
  hdrs !! "authorization" = None →
  validateAuthorization env hdrs = JS.strict_eq None (CRON_TOKEN env).
Proof. intros H. unfold validateAuthorization. by rewrite H. Qed.

Lemma truthy_Some (s : string) : JS.truthy (Some s) = true ↔ s ≠ "".
Proof.
  simpl. destruct (String.eqb_spec s ""); simpl; split; congruence.
Qed.

(** ** The handler *)

Lemma determineLevelBreaks_broke (parsed : ParsedResults)
    (out : list LevelBreak) :
  determineLevelBreaks parsed = Some out → Forall (λ e, broke e = true) out.
Proof.
  unfold determineLevelBreaks.
  destruct (supportResistance parsed) as [lvls|]; simpl; [|discriminate].
  intros [= <-]. apply Forall_forall. intros e He.
  apply list_elem_of_In, filter_In in He. tauto.
Qed.

Lemma stringifyLevelBreak_broke (e : LevelBreak) :
  broke e = true → isBreakEntry (stringifyLevelBreak e).
Proof.
  intros H. unfold isBreakEntry, stringifyLevelBreak. rewrite H.
  simpl. eauto.
Qed.

(** The plain-text responses carry their status, body and content type. *)
Lemma answersText_textResponse (status : Z) (text : string) :
  answersText (Some (textResponse status text)) status text.
Proof. exists (textResponse status text). by repeat split. Qed.

Lemma answersText_eq (outcome : option Response) (status : Z) (text : string) :
  outcome = Some (textResponse status text) → answersText outcome status text.
Proof. intros ->. apply answersText_textResponse. Qed.

Section Handler.

Variable env : Env.
Variable stringify : list (string * string) → string.
Variable fetch : string → option string → option ApiData.

Local Abbreviation scan := (scanSymbol env stringify fetch).
Local Abbreviation handle := (handler env stringify fetch).

(** The record of a symbol names that symbol, and its entries all have
    [broke] true. *)
Lemma scanSymbol_Some (s : string) (r : ScanResult) :
  scan s = Some r →
  symbol r = s ∧ Forall (λ e, broke e = true) (brokenLevels r).
Proof.
  unfold scanSymbol. intros H.
  destruct (mapM id _) as [results|]; simpl in H; [|discriminate].
  destruct (parseResults results) as [parsed|]; simpl in H; [|discriminate].
  destruct (determineLevelBreaks parsed) as [out|] eqn:Hd; simpl in H;
    [|discriminate].
  injection H as <-. simpl. split; [reflexivity|].
  by apply determineLevelBreaks_broke in Hd.
Qed.

(** The records collected are those of the symbols. *)
Lemma scanned_elem (scanned : list ScanResult) (r : ScanResult) :
  mapM scan symbols = Some scanned →
  r ∈ scanned → ∃ s, s ∈ symbols ∧ scan s = Some r.
Proof.
  intros Hm Hr. apply mapM_Some in Hm.
  apply list_elem_of_lookup in Hr as [i Hi].
  destruct (Forall2_lookup_r _ _ _ _ _ Hm Hi) as (s & Hs & Hscan).
  exists s. split; [|done]. by apply list_elem_of_lookup; exists i.
Qed.

(** The four early returns, and the main flow. *)
Lemma handler_unconfigured (request : Request) :
  JS.truthy (CRON_TOKEN env) = false →
  handle request = Some (textResponse 500 "config not setup").
Proof. intros H. unfold handler. by rewrite H. Qed.

Lemma handler_unauthorized (request : Request) :
  JS.truthy (CRON_TOKEN env) = true →
  validateAuthorization env (headers request) = false →
  handle request = Some (textResponse 401 "unauthorized").
Proof. intros H1 H2. unfold handler. by rewrite H1, H2. Qed.

Lemma handler_missing_symbol (request : Request) :
  JS.truthy (CRON_TOKEN env) = true →
  validateAuthorization env (headers request) = true →
  JS.truthy (queryStringParameters request !! "symbol") = false →
  handle request = Some (textResponse 412 "missing symbol").
Proof.
  intros H1 H2 H3. unfold handler. by rewrite H1, H2, H3.
Qed.

Lemma handler_missing_resolution (request : Request) :
  JS.truthy (CRON_TOKEN env) = true →
  validateAuthorization env (headers request) = true →
  JS.truthy (queryStringParameters request !! "symbol") = true →
  JS.truthy (queryStringParameters request !! "resolution") = false →
  handle request = Some (textResponse 412 "missing resolution").
Proof.
  intros H1 H2 H3 H4. unfold handler. by rewrite H1, H2, H3, H4.
Qed.

(** A response with status 200 comes from the main flow. *)
Lemma handler_200 (request : Request) (resp : Response) :
  handle request = Some resp →
  statusCode resp = 200%Z →
  ∃ scanned,
    mapM scan symbols = Some scanned
    ∧ resp = jsonResponse
               (List.filter (λ r, negb (length (brokenLevels r) =? 0)%nat)
                  scanned).
Proof.
  unfold handler. intros H Hs.
  destruct (negb (JS.truthy (CRON_TOKEN env)));
    [injection H as <-; discriminate|].
  destruct (negb (validateAuthorization env (headers request)));
    [injection H as <-; discriminate|].
  destruct (negb (JS.truthy (queryStringParameters request !! "symbol")));
    [injection H as <-; discriminate|].
  destruct (negb (JS.truthy (queryStringParameters request !! "resolution")));
    [injection H as <-; discriminate|].
  destruct (mapM scan symbols) as [scanned|]; simpl in H; [|discriminate].
  injection H as <-. by exists scanned.
Qed.

(** C5. In every response with status 200, the body is the serialized
    array of the records kept, each of which has a non-empty
    [brokenLevels] whose entries all have [broke] true; a symbol whose
    computed [brokenLevels] is empty has no record in the array; and in
    the serialized document every element has a [brokenLevels] array
    with at least one element, each with [broke: true]. *)
Theorem response_only_broken (request : Request) (resp : Response) :
  handle request = Some resp →
  statusCode resp = 200%Z →
  ∃ results,
    body resp = Json (stringifyResults results)
    ∧ (∀ r, r ∈ results →
            brokenLevels r ≠ []
            ∧ ∀ e, e ∈ brokenLevels r → broke e = true)
    ∧ (∀ s r, s ∈ symbols → scan s = Some r → brokenLevels r = [] →
              s ∉ symbol <$> results)
    ∧ ∃ items, stringifyResults results = JArray items
               ∧ Forall isScanRecord items.
Proof.
  intros H Hs. destruct (handler_200 request resp H Hs) as (scanned & Hm & ->).
  set (keep := λ r : ScanResult, negb (length (brokenLevels r) =? 0)%nat).
  assert (Hkeep : ∀ r, r ∈ List.filter keep scanned →
            r ∈ scanned ∧ brokenLevels r ≠ []).
  { intros r Hr. apply list_elem_of_In, filter_In in Hr as [Hin Hk].
    split; [by apply list_elem_of_In|].
    intros E. unfold keep in Hk. by rewrite E in Hk. }
  assert (Hall : ∀ r, r ∈ List.filter keep scanned →
            brokenLevels r ≠ [] ∧ ∀ e, e ∈ brokenLevels r → broke e = true).
  { intros r Hr. destruct (Hkeep r Hr) as [Hin Hne]. split; [done|].
    destruct (scanned_elem scanned r Hm Hin) as (s & _ & Hscan).
    apply scanSymbol_Some in Hscan as [_ Hb].
    intros e He. by apply (proj1 (Forall_forall _ _) Hb). }
  exists (List.filter keep scanned). split; [reflexivity|].
  split; [exact Hall|]. split.
  - intros s r Hin Hscan Hempty Hs'.
    apply list_elem_of_fmap in Hs' as (r' & -> & Hr').
    destruct (Hkeep r' Hr') as [Hin' Hne].
    destruct (scanned_elem scanned r' Hm Hin') as (s' & _ & Hscan').
    destruct (scanSymbol_Some s' r' Hscan') as [<- _].
    rewrite Hscan in Hscan'. injection Hscan' as <-. contradiction.
  - eexists. split; [reflexivity|].
    apply Forall_forall. intros j Hj.
    apply list_elem_of_In, in_map_iff in Hj as (r & <- & Hr).
    apply list_elem_of_In in Hr. destruct (Hall r Hr) as [Hne Hb].
    unfold isScanRecord, stringifyScanResult.
    destruct (brokenLevels r) as [|e es] eqn:E; [done|].
    exists (symbol r), (stringifyLevelBreak e),
           (List.map stringifyLevelBreak es).
    split; [reflexivity|].
    change (Forall isBreakEntry (List.map stringifyLevelBreak (e :: es))).
    apply Forall_forall. intros j Hj.
    apply list_elem_of_In, in_map_iff in Hj as (e' & <- & He').
    apply stringifyLevelBreak_broke, Hb. by apply list_elem_of_In.
Qed.

(** C6. The preconditions are checked in a fixed order, each with its own
    response: without the secret the answer has status 500 and body
    "config not setup", whatever the request; otherwise, when
    authorization fails, status 401; otherwise, without the [symbol]
    parameter, status 412 and body "missing symbol", whatever the
    [resolution] parameter; otherwise, without the [resolution] parameter,
    status 412 and body "missing resolution".  Each is plain text. *)
Theorem precondition_order (request : Request) :
  (CRON_TOKEN env = None →
   ∃ resp, handle request = Some resp
           ∧ statusCode resp = 500%Z
           ∧ body resp = Text "config not setup"
           ∧ responseHeaders resp !! "content-type"
             = Some "text/plain; charset=utf8")
  ∧ (JS.truthy (CRON_TOKEN env) = true →
     validateAuthorization env (headers request) = false →
     ∃ resp, handle request = Some resp
             ∧ statusCode resp = 401%Z
             ∧ body resp = Text "unauthorized"
             ∧ responseHeaders resp !! "content-type"
               = Some "text/plain; charset=utf8")
  ∧ (JS.truthy (CRON_TOKEN env) = true →
     validateAuthorization env (headers request) = true →
     queryStringParameters request !! "symbol" = None →
     ∃ resp, handle request = Some resp
             ∧ statusCode resp = 412%Z
             ∧ body resp = Text "missing symbol"
             ∧ responseHeaders resp !! "content-type"
               = Some "text/plain; charset=utf8")
  ∧ (JS.truthy (CRON_TOKEN env) = true →
     validateAuthorization env (headers request) = true →
     JS.truthy (queryStringParameters request !! "symbol") = true →
     queryStringParameters request !! "resolution" = None →
     ∃ resp, handle request = Some resp
             ∧ statusCode resp = 412%Z
             ∧ body resp = Text "missing resolution"
             ∧ responseHeaders resp !! "content-type"
               = Some "text/plain; charset=utf8").
Proof.
  split; [|split; [|split]].
  - intros H. apply (answersText_eq _ 500 "config not setup").
    apply handler_unconfigured. by rewrite H.
  - intros H1 H2. apply (answersText_eq _ 401 "unauthorized").
    by apply handler_unauthorized.
  - intros H1 H2 H3. apply (answersText_eq _ 412 "missing symbol").
    apply handler_missing_symbol; try done. by rewrite H3.
  - intros H1 H2 H3 H4. apply (answersText_eq _ 412 "missing resolution").
    apply handler_missing_resolution; try done. by rewrite H4.
Qed.

(** C7. With the secret set to a non-empty string: a request without the
    [authorization] header is answered with status 401 and body
    "unauthorized"; so is a request whose header has no second
    space-separated piece, and one whose second piece differs from the
    secret; a request whose second piece is the secret passes
    authorization and is answered by the checks of the query parameters
    (status 412) or by the main flow, never with 401 or 500. *)
Theorem authorization_outcomes (request : Request) (secret : string) :
  CRON_TOKEN env = Some secret →
  secret ≠ "" →
  (headers request !! "authorization" = None →
   ∃ resp, handle request = Some resp
           ∧ statusCode resp = 401%Z
           ∧ body resp = Text "unauthorized"
           ∧ responseHeaders resp !! "content-type"
             = Some "text/plain; charset=utf8")
  ∧ (∀ v, headers request !! "authorization" = Some v →
          contains " " v = false ∨ JS.split " " v !! 1%nat = None →
          ∃ resp, handle request = Some resp
                  ∧ statusCode resp = 401%Z
                  ∧ body resp = Text "unauthorized"
                  ∧ responseHeaders resp !! "content-type"
                    = Some "text/plain; charset=utf8")
  ∧ (∀ v t, headers request !! "authorization" = Some v →
            JS.split " " v !! 1%nat = Some t →
            t ≠ secret →
            ∃ resp, handle request = Some resp
                    ∧ statusCode resp = 401%Z
                    ∧ body resp = Text "unauthorized"
                    ∧ responseHeaders resp !! "content-type"
                      = Some "text/plain; charset=utf8")
  ∧ (∀ v, headers request !! "authorization" = Some v →
          JS.split " " v !! 1%nat = Some secret →
          validateAuthorization env (headers request) = true
          ∧ (JS.truthy (queryStringParameters request !! "symbol") = false →
             ∃ resp, handle request = Some resp
                     ∧ statusCode resp = 412%Z
                     ∧ body resp = Text "missing symbol"
                     ∧ responseHeaders resp !! "content-type"
                       = Some "text/plain; charset=utf8")
          ∧ (JS.truthy (queryStringParameters request !! "symbol") = true →
             JS.truthy (queryStringParameters request !! "resolution") = false →
             ∃ resp, handle request = Some resp
                     ∧ statusCode resp = 412%Z
                     ∧ body resp = Text "missing resolution"
                     ∧ responseHeaders resp !! "content-type"
                       = Some "text/plain; charset=utf8")
          ∧ (∀ resp, handle request = Some resp →
                     statusCode resp ≠ 401%Z ∧ statusCode resp ≠ 500%Z)).
Proof.
  intros Hc Hne.
  assert (Ht : JS.truthy (CRON_TOKEN env) = true)
    by (rewrite Hc; by apply truthy_Some).
  split; [|split; [|split]].
  - intros Hh. apply (answersText_eq _ 401 "unauthorized").
    apply handler_unauthorized; [done|].
    rewrite (validateAuthorization_absent env _ Hh), Hc.
    by apply strict_eq_false.
  - intros v Hh Hnone. apply (answersText_eq _ 401 "unauthorized").
    apply handler_unauthorized; [done|].
    rewrite (validateAuthorization_present env _ v Hh), Hc.
    assert (Hs : JS.split " " v !! 1%nat = None).
    { destruct Hnone as [Hsp|Hs]; [|exact Hs].
      by rewrite (split_without_sep " " v Hsp). }
    rewrite Hs. by apply strict_eq_false.
  - intros v t Hh Hs Hd. apply (answersText_eq _ 401 "unauthorized").
    apply handler_unauthorized; [done|].
    rewrite (validateAuthorization_present env _ v Hh), Hc, Hs.
    apply strict_eq_false. congruence.
  - intros v Hh Hs.
    assert (Hv : validateAuthorization env (headers request) = true).
    { rewrite (validateAuthorization_present env _ v Hh), Hc, Hs.
      by apply strict_eq_true. }
    split; [done|]. split.
    { intros H. apply (answersText_eq _ 412 "missing symbol").
      by apply handler_missing_symbol. }
    split.
    { intros H1 H2. apply (answersText_eq _ 412 "missing resolution").
      by apply handler_missing_resolution. }
    intros resp. unfold handler. rewrite Ht, Hv. cbn [negb].
    destruct (JS.truthy (queryStringParameters request !! "symbol"));
      cbn [negb]; [|by intros [= <-]].
    destruct (JS.truthy (queryStringParameters request !! "resolution"));
      cbn [negb]; [|by intros [= <-]].
    destruct (mapM scan symbols) as [scanned|]; [|by intros [=]].
    by intros [= <-].
Qed.

End Handler.

(** C8. Authorization does not look at the scheme.  With the secret set and
    a header value that has a space, the request is authorized if and only
    if the second space-separated piece is the secret; that piece is the
    text between the first space and the next one (or the end), whatever
    stands before the first space, the empty string included.  A header
    value without any space is never authorized, even when it is the
    secret itself. *)
Theorem scheme_is_ignored (env : Env) (secret : string)
    (hdrs : gmap string string) (v : string) :
  CRON_TOKEN env = Some secret →
  hdrs !! "authorization" = Some v →
  (contains " " v = true →
   (∃ t, JS.split " " v !! 1%nat = Some t)
   ∧ (validateAuthorization env hdrs = true
      ↔ JS.split " " v !! 1%nat = Some secret)
   ∧ (∀ scheme tok tail,
        v = (scheme ++ String " " (tok ++ tail))%string →
        contains " " scheme = false →
        contains " " tok = false →
        tail = EmptyString ∨ (∃ more, tail = String " " more) →
        (validateAuthorization env hdrs = true ↔ tok = secret)))
  ∧ (contains " " v = false → validateAuthorization env hdrs = false).
Proof.
  intros Hc Hh. rewrite (validateAuthorization_present env hdrs v Hh), Hc.
  split.
  - intros Hsp. split; [by apply split_second_piece|].
    split; [apply strict_eq_true|].
    intros scheme tok tail -> Hs Ht Htail.
    rewrite (split_second_piece_is " " scheme tok tail Hs Ht Htail).
    rewrite strict_eq_true. split; congruence.
  - intros Hsp. rewrite (split_without_sep " " v Hsp). reflexivity.
Qed.

Lemma scheme_is_ignored_sample :
  CRON_TOKEN sampleEnv = Some "s3cret"
  ∧ ({[ "authorization" := "Basic s3cret" ]} : gmap string string)
      !! "authorization" = Some "Basic s3cret"
  ∧ contains " " "Basic s3cret" = true
  ∧ validateAuthorization sampleEnv {[ "authorization" := "Basic s3cret" ]}
    = true
  ∧ ({[ "authorization" := "s3cret" ]} : gmap string string)
      !! "authorization" = Some "s3cret"
  ∧ contains " " "s3cret" = false
  ∧ validateAuthorization sampleEnv {[ "authorization" := "s3cret" ]} = false.
Proof.
  split; [reflexivity|]. split; [reflexivity|]. split; [reflexivity|].
  split.
  { apply (scheme_is_ignored sampleEnv "s3cret"
             {[ "authorization" := "Basic s3cret" ]} "Basic s3cret");
      reflexivity. }
  split; [reflexivity|]. split; [reflexivity|].
  apply (scheme_is_ignored sampleEnv "s3cret"
           {[ "authorization" := "s3cret" ]} "s3cret"); reflexivity.
Defined.

(** C9. The two query parameters are tested for truthiness: with the
    secret set and the request authorized, a [symbol] parameter that is
    the empty string is answered with status 412 and body "missing
    symbol", and a non-empty [symbol] with a [resolution] that is the
    empty string is answered with status 412 and body "missing
    resolution". *)
Theorem empty_parameter_is_missing (env : Env)
    (stringify : list (string * string) → string)
    (fetch : string → option string → option ApiData)
    (request : Request) :
  JS.truthy (CRON_TOKEN env) = true →
  validateAuthorization env (headers request) = true →
  (queryStringParameters request !! "symbol" = Some "" →
   ∃ resp, handler env stringify fetch request = Some resp
           ∧ statusCode resp = 412%Z
           ∧ body resp = Text "missing symbol"
           ∧ responseHeaders resp !! "content-type"
             = Some "text/plain; charset=utf8")
  ∧ (∀ sym, queryStringParameters request !! "symbol" = Some sym →
            sym ≠ "" →
            queryStringParameters request !! "resolution" = Some "" →
            ∃ resp, handler env stringify fetch request = Some resp
                    ∧ statusCode resp = 412%Z
                    ∧ body resp = Text "missing resolution"
                    ∧ responseHeaders resp !! "content-type"
                      = Some "text/plain; charset=utf8").
Proof.
  intros Hc Hv. split.
  - intros Hs. apply (answersText_eq _ 412 "missing symbol").
    apply handler_missing_symbol; try done. by rewrite Hs.
  - intros sym Hs Hne Hr. apply (answersText_eq _ 412 "missing resolution").
    apply handler_missing_resolution; try done.
    + rewrite Hs. by apply truthy_Some.
    + by rewrite Hr.
Qed.

Lemma empty_parameter_is_missing_sample :
  JS.truthy (CRON_TOKEN sampleEnv) = true
  ∧ validateAuthorization sampleEnv
      (headers (requestOf (Some "Bearer s3cret") (Some "") (Some "D"))) = true
  ∧ (queryStringParameters (requestOf (Some "Bearer s3cret") (Some "") (Some "D"))
       !! "symbol" = Some ""
     ∧ ∃ resp,
         handler sampleEnv sampleStringify sampleFetch
           (requestOf (Some "Bearer s3cret") (Some "") (Some "D")) = Some resp
         ∧ statusCode resp = 412%Z
         ∧ body resp = Text "missing symbol"
         ∧ responseHeaders resp !! "content-type"
           = Some "text/plain; charset=utf8")
  ∧ (validateAuthorization sampleEnv
       (headers (requestOf (Some "Bearer s3cret") (Some "AAPL") (Some "")))
     = true
     ∧ queryStringParameters
         (requestOf (Some "Bearer s3cret") (Some "AAPL") (Some ""))
         !! "symbol" = Some "AAPL"
     ∧ "AAPL" ≠ ""
     ∧ queryStringParameters
         (requestOf (Some "Bearer s3cret") (Some "AAPL") (Some ""))
         !! "resolution" = Some ""
     ∧ ∃ resp,
         handler sampleEnv sampleStringify sampleFetch
           (requestOf (Some "Bearer s3cret") (Some "AAPL") (Some ""))
         = Some resp
         ∧ statusCode resp = 412%Z
         ∧ body resp = Text "missing resolution"
         ∧ responseHeaders resp !! "content-type"
           = Some "text/plain; charset=utf8").
Proof.
  split; [reflexivity|]. split; [reflexivity|]. split.
  - split; [reflexivity|].
    apply (empty_parameter_is_missing sampleEnv sampleStringify sampleFetch
             (requestOf (Some "Bearer s3cret") (Some "") (Some "D")));
      reflexivity.
  - split; [reflexivity|]. split; [reflexivity|]. split; [discriminate|].
    split; [reflexivity|].
    apply (empty_parameter_is_missing sampleEnv sampleStringify sampleFetch
             (requestOf (Some "Bearer s3cret") (Some "AAPL") (Some "")))
      with (sym := "AAPL"); [reflexivity|reflexivity|reflexivity|
                             discriminate|reflexivity].
Defined.

(** C10. [parseResults] does not depend on the order of its two inputs:
    for a result tagged ['quotes'] and one tagged ['supportResistance'],
    both orders return the same value, made of the data of the first and
    of the levels of the second. *)
Theorem parseResults_order (a b : ApiResult) :
  result a = "quotes" →
  result b = "supportResistance" →
  parseResults [a; b] = parseResults [b; a]
  ∧ parseResults [a; b]
    = Some {| quotes := data a; supportResistance := levels (data b) |}.
Proof.
  intros Ha Hb. unfold parseResults. simpl. rewrite Ha, Hb. simpl.
  split; reflexivity.
Qed.

Lemma parseResults_order_sample :
  result {| data := quoteOf 100 110 95 108; result := "quotes" |} = "quotes"
  ∧ result {| data := levelsOf [105%Z]; result := "supportResistance" |}
    = "supportResistance"
  ∧ parseResults [ {| data := quoteOf 100 110 95 108; result := "quotes" |};
                   {| data := levelsOf [105%Z]; result := "supportResistance" |} ]
    = parseResults [ {| data := levelsOf [105%Z]; result := "supportResistance" |};
                     {| data := quoteOf 100 110 95 108; result := "quotes" |} ].
Proof.
  split; [reflexivity|]. split; [reflexivity|].
  apply (parseResults_order
           {| data := quoteOf 100 110 95 108; result := "quotes" |}
           {| data := levelsOf [105%Z]; result := "supportResistance" |});
    reflexivity.
Defined.

(** ** The main flow returns *)

(** When every upstream call answers with a document that has [levels],
    the computation for a symbol succeeds. *)
Lemma scanSymbol_answers (env : Env)
    (stringify : list (string * string) → string)
    (fetch : string → option string → option ApiData) (s : string) :
  (∀ url tok, ∃ d lv, fetch url tok = Some d ∧ levels d = Some lv) →
  is_Some (scanSymbol env stringify fetch s).
Proof.
  intros Hf. unfold scanSymbol, fetchQuotes, fetchSupportResistance.
  repeat match goal with
         | |- context [fetch ?u ?t] =>
             let E := fresh "E" in
             destruct (Hf u t) as (? & ? & E & ?); rewrite E
         end.
  simpl. unfold determineLevelBreaks. simpl.
  match goal with H : levels _ = Some _ |- _ => rewrite H end.
  simpl. eauto.
Qed.

(** A request that passes the four checks is then answered with status
    200 and a serialized array. *)
Lemma handler_answers (env : Env)
    (stringify : list (string * string) → string)
    (fetch : string → option string → option ApiData) (request : Request) :
  JS.truthy (CRON_TOKEN env) = true →
  validateAuthorization env (headers request) = true →
  JS.truthy (queryStringParameters request !! "symbol") = true →
  JS.truthy (queryStringParameters request !! "resolution") = true →
  (∀ url tok, ∃ d lv, fetch url tok = Some d ∧ levels d = Some lv) →
  ∃ results,
    handler env stringify fetch request = Some (jsonResponse results).
Proof.
  intros H1 H2 H3 H4 Hf. unfold handler. rewrite H1, H2, H3, H4. cbn [negb].
  assert (Hm : is_Some (mapM (scanSymbol env stringify fetch) symbols)).
  { apply mapM_is_Some, Forall_forall. intros s _.
    by apply scanSymbol_answers. }
  destruct Hm as [scanned ->]. simpl. eauto.
Qed.

(** ** The claims about the handler, on sample requests *)

Lemma response_only_broken_sample :
  handler sampleEnv sampleStringify sampleFetch sampleRequest
  = Some sampleResponse
  ∧ statusCode sampleResponse = 200%Z
  ∧ ∃ results,
      body sampleResponse = Json (stringifyResults results)
      ∧ (∀ r, r ∈ results →
              brokenLevels r ≠ []
              ∧ ∀ e, e ∈ brokenLevels r → broke e = true)
      ∧ (∀ s r, s ∈ symbols →
                scanSymbol sampleEnv sampleStringify sampleFetch s = Some r →
                brokenLevels r = [] →
                s ∉ symbol <$> results)
      ∧ ∃ items, stringifyResults results = JArray items
                 ∧ Forall isScanRecord items.
Proof.
  split; [vm_compute; reflexivity|]. split; [reflexivity|].
  apply (response_only_broken sampleEnv sampleStringify sampleFetch
           sampleRequest sampleResponse);
    [vm_compute; reflexivity|reflexivity].
Defined.

Lemma precondition_order_sample :
  (CRON_TOKEN unsetEnv = None
   ∧ ∃ resp,
       handler unsetEnv sampleStringify sampleFetch sampleRequest = Some resp
       ∧ statusCode resp = 500%Z
       ∧ body resp = Text "config not setup"
       ∧ responseHeaders resp !! "content-type"
         = Some "text/plain; charset=utf8")
  ∧ (JS.truthy (CRON_TOKEN sampleEnv) = true
     ∧ validateAuthorization sampleEnv
         (headers (requestOf (Some "Bearer wrong") None None)) = false
     ∧ ∃ resp,
         handler sampleEnv sampleStringify sampleFetch
           (requestOf (Some "Bearer wrong") None None) = Some resp
         ∧ statusCode resp = 401%Z
         ∧ body resp = Text "unauthorized"
         ∧ responseHeaders resp !! "content-type"
           = Some "text/plain; charset=utf8")
  ∧ (validateAuthorization sampleEnv
       (headers (requestOf (Some "Bearer s3cret") None None)) = true
     ∧ queryStringParameters (requestOf (Some "Bearer s3cret") None None)
         !! "symbol" = None
     ∧ ∃ resp,
         handler sampleEnv sampleStringify sampleFetch
           (requestOf (Some "Bearer s3cret") None None) = Some resp
         ∧ statusCode resp = 412%Z
         ∧ body resp = Text "missing symbol"
         ∧ responseHeaders resp !! "content-type"
           = Some "text/plain; charset=utf8")
  ∧ (JS.truthy
       (queryStringParameters
          (requestOf (Some "Bearer s3cret") (Some "AAPL") None) !! "symbol")
     = true
     ∧ queryStringParameters
         (requestOf (Some "Bearer s3cret") (Some "AAPL") None)
         !! "resolution" = None
     ∧ ∃ resp,
         handler sampleEnv sampleStringify sampleFetch
           (requestOf (Some "Bearer s3cret") (Some "AAPL") None) = Some resp
         ∧ statusCode resp = 412%Z
         ∧ body resp = Text "missing resolution"
         ∧ responseHeaders resp !! "content-type"
           = Some "text/plain; charset=utf8").
Proof.
  split; [|split; [|split]].
  - split; [reflexivity|].
    apply (precondition_order unsetEnv sampleStringify sampleFetch
             sampleRequest); reflexivity.
  - split; [reflexivity|]. split; [reflexivity|].
    apply (precondition_order sampleEnv sampleStringify sampleFetch
             (requestOf (Some "Bearer wrong") None None)); reflexivity.
  - split; [reflexivity|]. split; [reflexivity|].
    apply (precondition_order sampleEnv sampleStringify sampleFetch
             (requestOf (Some "Bearer s3cret") None None)); reflexivity.
  - split; [reflexivity|]. split; [reflexivity|].
    apply (precondition_order sampleEnv sampleStringify sampleFetch
             (requestOf (Some "Bearer s3cret") (Some "AAPL") None));
      reflexivity.
Defined.

Lemma authorization_outcomes_sample :
  CRON_TOKEN sampleEnv = Some "s3cret"
  ∧ "s3cret" ≠ ""
  ∧ (headers (requestOf None (Some "AAPL") (Some "D")) !! "authorization" = None
     ∧ ∃ resp,
         handler sampleEnv sampleStringify sampleFetch
           (requestOf None (Some "AAPL") (Some "D")) = Some resp
         ∧ statusCode resp = 401%Z
         ∧ body resp = Text "unauthorized"
         ∧ responseHeaders resp !! "content-type"
           = Some "text/plain; charset=utf8")
  ∧ (headers (requestOf (Some "s3cret") (Some "AAPL") (Some "D"))
       !! "authorization" = Some "s3cret"
     ∧ contains " " "s3cret" = false
     ∧ ∃ resp,
         handler sampleEnv sampleStringify sampleFetch
           (requestOf (Some "s3cret") (Some "AAPL") (Some "D")) = Some resp
         ∧ statusCode resp = 401%Z
         ∧ body resp = Text "unauthorized"
         ∧ responseHeaders resp !! "content-type"
           = Some "text/plain; charset=utf8")
  ∧ (headers (requestOf (Some "Bearer wrong") (Some "AAPL") (Some "D"))
       !! "authorization" = Some "Bearer wrong"
     ∧ JS.split " " "Bearer wrong" !! 1%nat = Some "wrong"
     ∧ "wrong" ≠ "s3cret"
     ∧ ∃ resp,
         handler sampleEnv sampleStringify sampleFetch
           (requestOf (Some "Bearer wrong") (Some "AAPL") (Some "D"))
         = Some resp
         ∧ statusCode resp = 401%Z
         ∧ body resp = Text "unauthorized"
         ∧ responseHeaders resp !! "content-type"
           = Some "text/plain; charset=utf8")
  ∧ (headers (requestOf (Some "Bearer s3cret") None (Some "D"))
       !! "authorization" = Some "Bearer s3cret"
     ∧ JS.split " " "Bearer s3cret" !! 1%nat = Some "s3cret"
     ∧ JS.truthy
         (queryStringParameters
            (requestOf (Some "Bearer s3cret") None (Some "D")) !! "symbol")
       = false
     ∧ validateAuthorization sampleEnv
         (headers (requestOf (Some "Bearer s3cret") None (Some "D"))) = true
     ∧ ∃ resp,
         handler sampleEnv sampleStringify sampleFetch
           (requestOf (Some "Bearer s3cret") None (Some "D")) = Some resp
         ∧ statusCode resp = 412%Z
         ∧ body resp = Text "missing symbol"
         ∧ responseHeaders resp !! "content-type"
           = Some "text/plain; charset=utf8").
Proof.
  split; [reflexivity|]. split; [discriminate|].
  split; [|split; [|split]].
  - split; [reflexivity|].
    apply (authorization_outcomes sampleEnv sampleStringify sampleFetch
             (requestOf None (Some "AAPL") (Some "D")) "s3cret");
      [reflexivity|discriminate|reflexivity].
  - split; [reflexivity|]. split; [reflexivity|].
    apply (authorization_outcomes sampleEnv sampleStringify sampleFetch
             (requestOf (Some "s3cret") (Some "AAPL") (Some "D"))
             "s3cret") with (v := "s3cret");
      [reflexivity|discriminate|reflexivity|left; reflexivity].
  - split; [reflexivity|]. split; [reflexivity|]. split; [discriminate|].
    apply (authorization_outcomes sampleEnv sampleStringify sampleFetch
             (requestOf (Some "Bearer wrong") (Some "AAPL") (Some "D"))
             "s3cret") with (v := "Bearer wrong") (t := "wrong");
      [reflexivity|discriminate|reflexivity|reflexivity|discriminate].
  - split; [reflexivity|]. split; [reflexivity|]. split; [reflexivity|].
    destruct (authorization_outcomes sampleEnv sampleStringify sampleFetch
                (requestOf (Some "Bearer s3cret") None (Some "D")) "s3cret")
      as (_ & _ & _ & Hpass); [reflexivity|discriminate|].
    destruct (Hpass "Bearer s3cret") as (Hv & Hsym & _);
      [reflexivity|reflexivity|].
    split; [exact Hv|]. apply Hsym. reflexivity.
Defined.

(** ** Further checks on sample inputs *)

(** A level far from the day's range gives no entry. *)
Example quiet_day_no_entry : determineLevelBreaks sampleQuiet = Some [].
Proof. reflexivity. Qed.

(** A move down through the level gives the resistance-break entry. *)
Example down_day_entry : determineLevelBreaks sampleDown = Some [sampleDownEntry].
Proof. reflexivity. Qed.

(** When no symbol has a broken level the body is the empty array. *)
Example all_quiet_response :
  handler sampleEnv sampleStringify quietFetch sampleRequest
  = Some (jsonResponse []).
Proof. vm_compute. reflexivity. Qed.

(** A scan answer without [levels] makes the computation fail. *)
Example no_levels_fails : determineLevelBreaks sampleNoLevels = None.
Proof. reflexivity. Qed.

(** Two spaces after the scheme leave an empty second piece. *)
Example two_spaces_unauthorized :
  validateAuthorization sampleEnv {[ "authorization" := "Bearer  s3cret" ]}
  = false.
Proof. reflexivity. Qed.

(** An empty secret counts as no secret. *)
Example empty_secret_unconfigured :
  handler {| CRON_TOKEN := Some ""; FINNHUB_AUTH_TOKEN := None |}
    sampleStringify sampleFetch sampleRequest
  = Some (textResponse 500 "config not setup").
Proof. reflexivity. Qed.

(** * Further properties *)

(** ** The order of the Numbers *)

Lemma SFleb_rankle (x y : number) : SFleb x y = true ↔ rankle x y.
Proof.
  unfold SFleb, rankle, lexle.
  destruct x as [sx|sx| |sx mx ex], y as [sy|sy| |sy my ey];
    try destruct sx; try destruct sy; cbn -[Z.lt Z.le Z.opp];
    try (split; [discriminate || tauto|lia || tauto]);
    try (split; [intros _; lia|reflexivity]).
  all: change (Pos.compare_cont Eq mx my) with (mx ?= my)%positive;
    destruct (Z.compare_spec ex ey); destruct (Pos.compare_spec mx my);
    cbn; split; try discriminate; try reflexivity; try lia.
Qed.

Lemma SFleb_trans (x y z : number) :
  SFleb x y = true → SFleb y z = true → SFleb x z = true.
Proof.
  rewrite !SFleb_rankle. unfold rankle, lexle.
  destruct (rank x) as [[[a1 a2] a3]|], (rank y) as [[[b1 b2] b3]|],
    (rank z) as [[[c1 c2] c3]|]; simpl; try tauto; lia.
Qed.

(** Two Numbers that are not NaN are comparable. *)
Lemma SFleb_total (x y : number) :
  SFleb x x = true → SFleb y y = true →
  SFleb x y = true ∨ SFleb y x = true.
Proof.
  rewrite !SFleb_rankle. unfold rankle, lexle.
  destruct (rank x) as [[[a1 a2] a3]|], (rank y) as [[[b1 b2] b3]|];
    simpl; try tauto; lia.
Qed.

(** A Number below or above another one is not NaN. *)
Lemma SFleb_refl_l (x y : number) : SFleb x y = true → SFleb x x = true.
Proof.
  rewrite !SFleb_rankle. unfold rankle, lexle.
  destruct (rank x) as [[[a1 a2] a3]|], (rank y) as [[[b1 b2] b3]|];
    simpl; try tauto; lia.
Qed.

Lemma SFleb_refl_r (x y : number) : SFleb x y = true → SFleb y y = true.
Proof.
  rewrite !SFleb_rankle. unfold rankle, lexle.
  destruct (rank x) as [[[a1 a2] a3]|], (rank y) as [[[b1 b2] b3]|];
    simpl; try tauto; lia.
Qed.

Lemma SFleb_NaN_l (y : number) : SFleb JS.NaN y = false.
Proof. by destruct y. Qed.

Lemma SFleb_NaN_r (x : number) : SFleb x JS.NaN = false.
Proof. by destruct x. Qed.

(** ** More on [determineLevelBreaks] *)

Lemma reported_iff (results : ParsedResults) (L : number) :
  reported results L = true
  ↔ supportBreakCondition results L ∨ resistanceBreakCondition results L.
Proof.
  unfold reported, supportBreakCondition, resistanceBreakCondition.
  rewrite orb_true_iff, !andb_true_iff. tauto.
Qed.

(** An entry is kept exactly when one of the two conditions holds, and
    then it carries its level. *)
Lemma levelEntry_reported (results : ParsedResults) (L : number) :
  broke (levelEntry results L) = reported results L
  ∧ (reported results L = true → levelOf (levelEntry results L) = Some L).
Proof.
  destruct (levelEntry_cases results L)
    as [[Hs ->]|[(Hs & Hr & ->)|(Hs & Hr & ->)]]; simpl.
  - split; [|done]. symmetry. apply reported_iff. by left.
  - split; [|done]. symmetry. apply reported_iff. by right.
  - split.
    + symmetry. apply not_true_is_false. rewrite reported_iff. tauto.
    + rewrite reported_iff. tauto.
Qed.

Lemma kept_levels_filter (results : ParsedResults) (lvls : list number) :
  omap levelOf (List.filter broke (List.map (levelEntry results) lvls))
  = List.filter (reported results) lvls.
Proof.
  induction lvls as [|L lvls IH]; [reflexivity|].
  cbn [List.map List.filter].
  destruct (levelEntry_reported results L) as [Hb Hl]. rewrite Hb.
  destruct (reported results L); [|exact IH].
  cbn. rewrite (Hl eq_refl). by rewrite IH.
Qed.

Lemma kept_entries_length (results : ParsedResults) (lvls : list number) :
  length (List.filter broke (List.map (levelEntry results) lvls))
  = length (List.filter (reported results) lvls).
Proof.
  induction lvls as [|L lvls IH]; [reflexivity|].
  cbn [List.map List.filter].
  destruct (levelEntry_reported results L) as [-> _].
  destruct (reported results L); cbn; by rewrite IH.
Qed.

(** X1. The levels carried by the output are exactly the levels of the
    input for which [o <= L <= h] or [o >= L >= l] holds, in the order of
    the input and as many times as they occur in it: nothing is merged,
    sorted or dropped. *)
Theorem reported_levels_exact (results : ParsedResults) (lvls : list number) :
  supportResistance results = Some lvls →
  ∃ out, determineLevelBreaks results = Some out
    ∧ omap levelOf out = List.filter (reported results) lvls
    ∧ length out = length (List.filter (reported results) lvls).
Proof.
  intros Hl. unfold determineLevelBreaks. rewrite Hl. simpl.
  eexists. split; [reflexivity|].
  split; [apply kept_levels_filter|apply kept_entries_length].
Qed.

Lemma reported_levels_exact_sample :
  supportResistance sampleManyLevels
  = Some [JS.num 105; JS.num 97; JS.num 120; JS.num 105]
  ∧ ∃ out, determineLevelBreaks sampleManyLevels = Some out
      ∧ omap levelOf out = [JS.num 105; JS.num 97; JS.num 105]
      ∧ length out = 3%nat.
Proof.
  split; [reflexivity|].
  apply (reported_levels_exact sampleManyLevels
           [JS.num 105; JS.num 97; JS.num 120; JS.num 105]).
  reflexivity.
Defined.

(** For a quote whose low, open and high are in order, the two conditions
    together say that the level lies between the low and the high. *)
Lemma reported_in_range (results : ParsedResults) (L : number) :
  SFleb (quoteL results) (quoteO results) = true →
  SFleb (quoteO results) (quoteH results) = true →
  reported results L = true
  ↔ SFleb (quoteL results) L = true ∧ SFleb L (quoteH results) = true.
Proof.
  intros Hlo Hoh. rewrite reported_iff.
  unfold supportBreakCondition, resistanceBreakCondition. split.
  - intros [[H1 H2]|[H1 H2]].
    + split; [|done]. by apply (SFleb_trans _ (quoteO results)).
    + split; [done|]. by apply (SFleb_trans _ (quoteO results)).
  - intros [H1 H2].
    destruct (SFleb_total (quoteO results) L) as [H|H].
    + by apply (SFleb_refl_l _ _ Hoh).
    + by apply (SFleb_refl_l _ _ H2).
    + by left.
    + by right.
Qed.

(** X2. For a quote with [l <= o <= h], a level of the input is carried
    by some entry of the output if and only if it lies in the day's range,
    [l <= L <= h]. *)
Theorem reported_iff_in_day_range (results : ParsedResults)
    (lvls : list number) (L : number) :
  supportResistance results = Some lvls →
  SFleb (quoteL results) (quoteO results) = true →
  SFleb (quoteO results) (quoteH results) = true →
  L ∈ lvls →
  ∃ out, determineLevelBreaks results = Some out
    ∧ ((∃ e, e ∈ out ∧ levelOf e = Some L)
       ↔ SFleb (quoteL results) L = true ∧ SFleb L (quoteH results) = true).
Proof.
  intros Hl Hlo Hoh HL.
  destruct (determineLevelBreaks results) as [out|] eqn:Hd;
    [|unfold determineLevelBreaks in Hd; rewrite Hl in Hd; discriminate].
  exists out. split; [reflexivity|].
  rewrite <- (reported_in_range results L Hlo Hoh). split.
  - intros (e & He & Hlev).
    destruct (proj1 (determineLevelBreaks_elem results lvls out e Hl Hd) He)
      as (L' & _ & -> & Hb).
    destruct (levelEntry_reported results L') as [Hrep Hcarry].
    rewrite Hb in Hrep. symmetry in Hrep.
    rewrite (Hcarry Hrep) in Hlev. by injection Hlev as <-.
  - intros Hrep. exists (levelEntry results L).
    destruct (levelEntry_reported results L) as [Hb Hcarry].
    split; [|by apply Hcarry].
    apply (determineLevelBreaks_elem results lvls out _ Hl Hd).
    exists L. split; [done|]. split; [done|]. by rewrite Hb.
Qed.

Lemma reported_iff_in_day_range_sample :
  supportResistance sampleManyLevels
  = Some [JS.num 105; JS.num 97; JS.num 120; JS.num 105]
  ∧ SFleb (quoteL sampleManyLevels) (quoteO sampleManyLevels) = true
  ∧ SFleb (quoteO sampleManyLevels) (quoteH sampleManyLevels) = true
  ∧ JS.num 120 ∈ [JS.num 105; JS.num 97; JS.num 120; JS.num 105]
  ∧ ∃ out, determineLevelBreaks sampleManyLevels = Some out
      ∧ ((∃ e, e ∈ out ∧ levelOf e = Some (JS.num 120))
         ↔ SFleb (quoteL sampleManyLevels) (JS.num 120) = true
           ∧ SFleb (JS.num 120) (quoteH sampleManyLevels) = true).
Proof.
  split; [reflexivity|]. split; [reflexivity|]. split; [reflexivity|].
  split; [do 2 apply list_elem_of_further; apply list_elem_of_here|].
  apply (reported_iff_in_day_range sampleManyLevels
           [JS.num 105; JS.num 97; JS.num 120; JS.num 105] (JS.num 120));
    [reflexivity|reflexivity|reflexivity|].
  do 2 apply list_elem_of_further. apply list_elem_of_here.
Defined.

(** X3. A quote without an open price (or whose open is NaN) reports no
    level at all, whatever the levels and the other prices are. *)
Theorem no_open_no_break (results : ParsedResults) (lvls : list number) :
  supportResistance results = Some lvls →
  quoteO results = JS.NaN →
  determineLevelBreaks results = Some [].
Proof.
  intros Hl Ho. unfold determineLevelBreaks. rewrite Hl. simpl. f_equal.
  clear Hl. induction lvls as [|L lvls IH]; [reflexivity|].
  cbn [List.map List.filter].
  destruct (levelEntry_reported results L) as [-> _].
  unfold reported. rewrite Ho, SFleb_NaN_l, SFleb_NaN_r.
  cbn [andb orb]. apply IH.
Qed.

Lemma no_open_no_break_sample :
  supportResistance sampleNoOpen = Some [JS.num 105]
  ∧ quoteO sampleNoOpen = JS.NaN
  ∧ determineLevelBreaks sampleNoOpen = Some [].
Proof.
  split; [reflexivity|]. split; [reflexivity|].
  apply (no_open_no_break sampleNoOpen [JS.num 105]); reflexivity.
Defined.

(** X4. Every entry of the output has [broke] true, has [closedBroken]
    set, has exactly one of [resistance] and [support] set, and carries a
    level of the input that is not NaN. *)
Theorem output_entry_shape (results : ParsedResults) (out : list LevelBreak)
    (e : LevelBreak) :
  determineLevelBreaks results = Some out →
  e ∈ out →
  broke e = true
  ∧ (∃ b, closedBroken e = Some b)
  ∧ (∃ L lvls, supportResistance results = Some lvls ∧ L ∈ lvls
       ∧ L ≠ JS.NaN
       ∧ ((resistance e = Some L ∧ support e = None)
          ∨ (resistance e = None ∧ support e = Some L))).
Proof.
  intros Hd He.
  destruct (supportResistance results) as [lvls|] eqn:Hl;
    [|unfold determineLevelBreaks in Hd; rewrite Hl in Hd; discriminate].
  destruct (proj1 (determineLevelBreaks_elem results lvls out e Hl Hd) He)
    as (L & HL & Ee & Hb).
  split; [done|]. subst e.
  destruct (levelEntry_cases results L)
    as [[Hs E]|[(_ & Hr & E)|(_ & _ & E)]]; rewrite E in Hb |- *; simpl.
  - split; [eauto|]. exists L, lvls. split; [done|]. split; [done|].
    split; [|by left].
    intros ->. destruct Hs as [Hs _]. by rewrite SFleb_NaN_r in Hs.
  - split; [eauto|]. exists L, lvls. split; [done|]. split; [done|].
    split; [|by right].
    intros ->. destruct Hr as [_ Hr]. by rewrite SFleb_NaN_r in Hr.
  - discriminate.
Qed.

Lemma output_entry_shape_sample :
  determineLevelBreaks sampleDown = Some [sampleDownEntry]
  ∧ sampleDownEntry ∈ [sampleDownEntry]
  ∧ broke sampleDownEntry = true
  ∧ (∃ b, closedBroken sampleDownEntry = Some b)
  ∧ (∃ L lvls, supportResistance sampleDown = Some lvls ∧ L ∈ lvls
       ∧ L ≠ JS.NaN
       ∧ ((resistance sampleDownEntry = Some L ∧ support sampleDownEntry = None)
          ∨ (resistance sampleDownEntry = None
             ∧ support sampleDownEntry = Some L))).
Proof.
  split; [reflexivity|]. split; [apply list_elem_of_here|].
  apply (output_entry_shape sampleDown [sampleDownEntry] sampleDownEntry);
    [reflexivity|apply list_elem_of_here].
Defined.

(** The entry of a level, its [closedBroken] apart, is decided by the
    open, the high and the low. *)
Lemma levelEntry_withoutClose (r1 r2 : ParsedResults) (L : number) :
  quoteO r1 = quoteO r2 → quoteH r1 = quoteH r2 → quoteL r1 = quoteL r2 →
  withoutClose (levelEntry r1 L) = withoutClose (levelEntry r2 L).
Proof.
  intros Ho Hh Hl. unfold levelEntry.
  fold (quoteO r1) (quoteH r1) (quoteL r1) (quoteO r2) (quoteH r2) (quoteL r2).
  rewrite Ho, Hh, Hl.
  destruct (JS.le (quoteO r2) L && JS.ge (quoteH r2) L); [reflexivity|].
  destruct (JS.ge (quoteO r2) L && JS.le (quoteL r2) L); reflexivity.
Qed.

(** X5. The close price decides nothing but [closedBroken]: two quotes
    with the same open, high and low give, for the same levels, outputs
    that agree entry by entry on [broke], [resistance] and [support]. *)
Theorem close_only_sets_closedBroken (r1 r2 : ParsedResults) :
  quoteO r1 = quoteO r2 → quoteH r1 = quoteH r2 → quoteL r1 = quoteL r2 →
  supportResistance r1 = supportResistance r2 →
  List.map withoutClose <$> determineLevelBreaks r1
  = List.map withoutClose <$> determineLevelBreaks r2.
Proof.
  intros Ho Hh Hl Hs. unfold determineLevelBreaks. rewrite Hs.
  destruct (supportResistance r2) as [lvls|]; [|reflexivity].
  simpl. f_equal. clear Hs.
  induction lvls as [|L lvls IH]; [reflexivity|].
  cbn [List.map List.filter].
  pose proof (levelEntry_withoutClose r1 r2 L Ho Hh Hl) as E.
  assert (Hb : broke (levelEntry r1 L) = broke (levelEntry r2 L))
    by exact (f_equal broke E).
  rewrite Hb. destruct (broke (levelEntry r2 L)); [|exact IH].
  cbn [List.map]. by rewrite E, IH.
Qed.

Lemma close_only_sets_closedBroken_sample :
  quoteO sampleUp = quoteO sampleUpWeakClose
  ∧ quoteH sampleUp = quoteH sampleUpWeakClose
  ∧ quoteL sampleUp = quoteL sampleUpWeakClose
  ∧ supportResistance sampleUp = supportResistance sampleUpWeakClose
  ∧ List.map closedBroken <$> determineLevelBreaks sampleUp
    ≠ List.map closedBroken <$> determineLevelBreaks sampleUpWeakClose
  ∧ List.map withoutClose <$> determineLevelBreaks sampleUp
    = List.map withoutClose <$> determineLevelBreaks sampleUpWeakClose.
Proof.
  split; [reflexivity|]. split; [reflexivity|]. split; [reflexivity|].
  split; [reflexivity|]. split; [discriminate|].
  apply (close_only_sets_closedBroken sampleUp sampleUpWeakClose);
    reflexivity.
Defined.

(** ** More on [parseResults] *)

Lemma head_filter_None {A} (f : A → bool) (xs : list A) :
  head (List.filter f xs) = None ↔ Forall (λ x, f x = false) xs.
Proof.
  induction xs as [|x xs IH]; simpl.
  - split; [constructor|done].
  - destruct (f x) eqn:E; simpl.
    + split; [discriminate|]. intros H. inversion H; congruence.
    + rewrite IH. split; [by constructor|]. by inversion 1.
Qed.

Lemma head_filter_first {A} (f : A → bool) (pre post : list A) (x : A) :
  Forall (λ y, f y = false) pre → f x = true →
  head (List.filter f (pre ++ x :: post)%list) = Some x.
Proof.
  intros Hpre Hx. induction Hpre as [|y pre Hy _ IH]; simpl.
  - by rewrite Hx.
  - by rewrite Hy.
Qed.

Lemma tagged_false (tag : string) (r : ApiResult) :
  tagged tag r = false ↔ result r ≠ tag.
Proof. unfold tagged. by destruct (String.eqb_spec (result r) tag). Qed.

(** X6. [parseResults] fails exactly when no element is tagged ['quotes']
    or no element is tagged ['supportResistance']; the empty array and an
    array with one of the two answers are such inputs. *)
Theorem parseResults_fails_iff (results : list ApiResult) :
  parseResults results = None
  ↔ Forall (λ r, result r ≠ "quotes") results
    ∨ Forall (λ r, result r ≠ "supportResistance") results.
Proof.
  unfold parseResults.
  change (λ r : ApiResult, String.eqb (result r) "quotes")
    with (tagged "quotes").
  change (λ r : ApiResult, String.eqb (result r) "supportResistance")
    with (tagged "supportResistance").
  rewrite <- !(Forall_iff _ _ _ (tagged_false _)).
  rewrite <- !head_filter_None.
  destruct (head (List.filter (tagged "quotes") results)) as [q|];
    destruct (head (List.filter (tagged "supportResistance") results)) as [s|];
    simpl; split; try tauto; try discriminate.
  intros [H|H]; discriminate.
Qed.

(** X7. The first element of each tag decides the result: whatever stands
    after it, and whatever untagged or differently tagged elements stand
    before it, the quote is the data of the first ['quotes'] element and
    the levels those of the first ['supportResistance'] element. *)
Theorem parseResults_first_wins (preq postq pres posts : list ApiResult)
    (q s : ApiResult) :
  (preq ++ q :: postq = pres ++ s :: posts)%list →
  Forall (λ r, result r ≠ "quotes") preq →
  result q = "quotes" →
  Forall (λ r, result r ≠ "supportResistance") pres →
  result s = "supportResistance" →
  parseResults (preq ++ q :: postq)%list
  = Some {| quotes := data q; supportResistance := levels (data s) |}.
Proof.
  intros E Hpq Hq Hps Hs. unfold parseResults.
  change (λ r : ApiResult, String.eqb (result r) "quotes")
    with (tagged "quotes").
  change (λ r : ApiResult, String.eqb (result r) "supportResistance")
    with (tagged "supportResistance").
  rewrite (head_filter_first (tagged "quotes") preq postq q).
  - rewrite E.
    rewrite (head_filter_first (tagged "supportResistance") pres posts s).
    + reflexivity.
    + by apply (Forall_iff _ _ _ (tagged_false _)).
    + unfold tagged. by rewrite Hs.
  - by apply (Forall_iff _ _ _ (tagged_false _)).
  - unfold tagged. by rewrite Hq.
Qed.

Lemma parseResults_first_wins_sample :
  ([strayResult] ++ sampleQuoteResult :: [sampleLevelsResult; otherQuoteResult]
   = [strayResult; sampleQuoteResult] ++ sampleLevelsResult :: [otherQuoteResult])%list
  ∧ Forall (λ r, result r ≠ "quotes") [strayResult]
  ∧ result sampleQuoteResult = "quotes"
  ∧ Forall (λ r, result r ≠ "supportResistance") [strayResult; sampleQuoteResult]
  ∧ result sampleLevelsResult = "supportResistance"
  ∧ parseResults
      [strayResult; sampleQuoteResult; sampleLevelsResult; otherQuoteResult]
    = Some {| quotes := data sampleQuoteResult;
              supportResistance := levels (data sampleLevelsResult) |}.
Proof.
  assert (H1 : Forall (λ r, result r ≠ "quotes") [strayResult])
    by (repeat constructor; discriminate).
  assert (H2 : Forall (λ r, result r ≠ "supportResistance")
                 [strayResult; sampleQuoteResult])
    by (repeat constructor; discriminate).
  split; [reflexivity|]. split; [exact H1|]. split; [reflexivity|].
  split; [exact H2|]. split; [reflexivity|].
  apply (parseResults_first_wins [strayResult]
           [sampleLevelsResult; otherQuoteResult]
           [strayResult; sampleQuoteResult] [otherQuoteResult]
           sampleQuoteResult sampleLevelsResult);
    [reflexivity|exact H1|reflexivity|exact H2|reflexivity].
Defined.

(** ** More on [split] and [validateAuthorization] *)

(** X8. Splitting loses nothing: no piece holds the separator, and the
    pieces joined with the separator give the string back. *)
Theorem split_join (sep : ascii) (s : string) :
  Forall (λ piece, contains sep piece = false) (JS.split sep s)
  ∧ String.concat (String sep EmptyString) (JS.split sep s) = s.
Proof.
  induction s as [|ch rest [IHc IHj]]; simpl.
  - split; [by repeat constructor|reflexivity].
  - destruct (Ascii.eqb ch sep) eqn:Hch.
    + apply Ascii.eqb_eq in Hch as ->. split; [by constructor|].
      destruct (JS.split sep rest) as [|p ps] eqn:E;
        [by apply split_not_nil in E|].
      rewrite <- IHj. reflexivity.
    + destruct (JS.split sep rest) as [|p ps] eqn:E;
        [by apply split_not_nil in E|].
      apply Forall_cons in IHc as [Hp Hps]. split.
      * constructor; [|done]. simpl. by rewrite Hch, Hp.
      * rewrite <- IHj. by destruct ps.
Qed.

(** X9. Without a secret in the environment, [validateAuthorization]
    accepts exactly the requests that present no token: those without the
    header, and those whose header value has no space. *)
Theorem no_secret_no_token_accepted (env : Env) (hdrs : gmap string string) :
  CRON_TOKEN env = None →
  validateAuthorization env hdrs = true
  ↔ contains " " (default "" (hdrs !! "authorization")) = false.
Proof.
  intros Hc. unfold validateAuthorization. rewrite Hc, or_else_empty.
  destruct (contains " " (default "" (hdrs !! "authorization"))) eqn:E.
  - destruct (split_second_piece _ _ E) as [t ->]. done.
  - rewrite (split_without_sep _ _ E). done.
Qed.

Lemma no_secret_no_token_accepted_sample :
  CRON_TOKEN unsetEnv = None
  ∧ contains " " (default "" (bareHeaders !! "authorization")) = false
  ∧ validateAuthorization unsetEnv bareHeaders = true.
Proof.
  split; [reflexivity|]. split; [reflexivity|].
  apply (no_secret_no_token_accepted unsetEnv bareHeaders); reflexivity.
Defined.

(** ** More on the handler *)

(** X10. The record of a symbol exists exactly when both upstream calls
    for it answer and the levels answer has [levels]; it then holds the
    symbol and the breaks of that quote against those levels.  The two
    calls go to the quote and the support-resistance addresses, with
    resolution ['D'] and the Finnhub key. *)
Theorem scanSymbol_iff (env : Env)
    (stringify : list (string * string) → string)
    (fetch : string → option string → option ApiData)
    (s : string) (r : ScanResult) :
  scanSymbol env stringify fetch s = Some r
  ↔ ∃ dq ds lvls,
      fetch (quoteUrl stringify s) (FINNHUB_AUTH_TOKEN env) = Some dq
      ∧ fetch (levelsUrl stringify s) (FINNHUB_AUTH_TOKEN env) = Some ds
      ∧ levels ds = Some lvls
      ∧ r = {| symbol := s;
               brokenLevels :=
                 List.filter broke
                   (List.map
                      (levelEntry {| quotes := dq;
                                     supportResistance := Some lvls |})
                      lvls) |}.
Proof.
  unfold scanSymbol, fetchQuotes, fetchSupportResistance.
  fold (quoteUrl stringify s) (levelsUrl stringify s).
  destruct (fetch (quoteUrl stringify s) (FINNHUB_AUTH_TOKEN env)) as [dq|];
    [|split; [discriminate|by intros (? & ? & ? & ? & _)]].
  destruct (fetch (levelsUrl stringify s) (FINNHUB_AUTH_TOKEN env)) as [ds|];
    [|split; [discriminate|by intros (? & ? & ? & _ & ? & _)]].
  simpl. unfold determineLevelBreaks. simpl.
  destruct (levels ds) as [lvls|] eqn:El; simpl.
  - split.
    + intros [= <-]. by exists dq, ds, lvls.
    + intros (dq' & ds' & lvls' & [= <-] & [= <-] & El' & ->).
      rewrite El in El'. by injection El' as <-.
  - split; [discriminate|].
    intros (dq' & ds' & lvls' & _ & [= <-] & El' & _).
    rewrite El in El'. discriminate El'.
Qed.

(** X11. Past the four checks the handler is all or nothing: it rejects
    exactly when the computation of some symbol of the list fails, and
    then no response is built for the other symbols either. *)
Theorem handler_all_or_nothing (env : Env)
    (stringify : list (string * string) → string)
    (fetch : string → option string → option ApiData) (request : Request) :
  JS.truthy (CRON_TOKEN env) = true →
  validateAuthorization env (headers request) = true →
  JS.truthy (queryStringParameters request !! "symbol") = true →
  JS.truthy (queryStringParameters request !! "resolution") = true →
  handler env stringify fetch request = None
  ↔ ∃ s, s ∈ symbols ∧ scanSymbol env stringify fetch s = None.
Proof.
  intros H1 H2 H3 H4. unfold handler. rewrite H1, H2, H3, H4. cbn [negb].
  rewrite <- Exists_exists, <- mapM_None.
  destruct (mapM (scanSymbol env stringify fetch) symbols); simpl;
    split; done.
Qed.

Lemma handler_all_or_nothing_sample :
  JS.truthy (CRON_TOKEN sampleEnv) = true
  ∧ validateAuthorization sampleEnv (headers sampleRequest) = true
  ∧ JS.truthy (queryStringParameters sampleRequest !! "symbol") = true
  ∧ JS.truthy (queryStringParameters sampleRequest !! "resolution") = true
  ∧ "NIO" ∈ symbols
  ∧ scanSymbol sampleEnv sampleStringify flakyFetch "NIO" = None
  ∧ handler sampleEnv sampleStringify flakyFetch sampleRequest = None.
Proof.
  assert (Hin : "NIO" ∈ symbols)
    by (do 4 apply list_elem_of_further; apply list_elem_of_here).
  split; [reflexivity|]. split; [reflexivity|]. split; [reflexivity|].
  split; [reflexivity|]. split; [exact Hin|]. split; [reflexivity|].
  apply (handler_all_or_nothing sampleEnv sampleStringify flakyFetch
           sampleRequest); [reflexivity..|].
  exists "NIO". split; [exact Hin|reflexivity].
Defined.

(** X12. The values of the [symbol] and [resolution] parameters, and
    everything else in the request, play no part once the four checks
    pass: two such requests get the same outcome. *)
Theorem handler_ignores_request (env : Env)
    (stringify : list (string * string) → string)
    (fetch : string → option string → option ApiData)
    (request1 request2 : Request) :
  JS.truthy (CRON_TOKEN env) = true →
  validateAuthorization env (headers request1) = true →
  JS.truthy (queryStringParameters request1 !! "symbol") = true →
  JS.truthy (queryStringParameters request1 !! "resolution") = true →
  validateAuthorization env (headers request2) = true →
  JS.truthy (queryStringParameters request2 !! "symbol") = true →
  JS.truthy (queryStringParameters request2 !! "resolution") = true →
  handler env stringify fetch request1 = handler env stringify fetch request2.
Proof.
  intros H0 H1 H2 H3 H4 H5 H6. unfold handler.
  rewrite H0, H1, H2, H3, H4, H5, H6. reflexivity.
Qed.

Lemma handler_ignores_request_sample :
  JS.truthy (CRON_TOKEN sampleEnv) = true
  ∧ validateAuthorization sampleEnv (headers sampleRequest) = true
  ∧ JS.truthy (queryStringParameters sampleRequest !! "symbol") = true
  ∧ JS.truthy (queryStringParameters sampleRequest !! "resolution") = true
  ∧ validateAuthorization sampleEnv (headers otherRequest) = true
  ∧ JS.truthy (queryStringParameters otherRequest !! "symbol") = true
  ∧ JS.truthy (queryStringParameters otherRequest !! "resolution") = true
  ∧ sampleRequest ≠ otherRequest
  ∧ handler sampleEnv sampleStringify sampleFetch sampleRequest
    = handler sampleEnv sampleStringify sampleFetch otherRequest.
Proof.
  split; [reflexivity|]. split; [reflexivity|]. split; [reflexivity|].
  split; [reflexivity|]. split; [reflexivity|]. split; [reflexivity|].
  split; [reflexivity|].
  split.
  { intros E. apply (f_equal (λ r, queryStringParameters r !! "symbol")) in E.
    vm_compute in E. discriminate E. }
  apply (handler_ignores_request sampleEnv sampleStringify sampleFetch
           sampleRequest otherRequest); reflexivity.
Defined.

(** X13. The handler builds five responses and no other: the four plain
    text ones, with status 500, 401 or 412, and the JSON one, with status
    200; the content type always matches the body. *)
Theorem handler_responses (env : Env)
    (stringify : list (string * string) → string)
    (fetch : string → option string → option ApiData)
    (request : Request) (resp : Response) :
  handler env stringify fetch request = Some resp →
  (statusCode resp = 200%Z
   ∧ responseHeaders resp !! "content-type"
     = Some "application/json; charset=utf8"
   ∧ ∃ results, body resp = Json (stringifyResults results))
  ∨ (responseHeaders resp !! "content-type" = Some "text/plain; charset=utf8"
     ∧ ((statusCode resp = 500%Z ∧ body resp = Text "config not setup")
        ∨ (statusCode resp = 401%Z ∧ body resp = Text "unauthorized")
        ∨ (statusCode resp = 412%Z ∧ body resp = Text "missing symbol")
        ∨ (statusCode resp = 412%Z ∧ body resp = Text "missing resolution"))).
Proof.
  unfold handler.
  destruct (JS.truthy (CRON_TOKEN env)); cbn [negb];
    [|intros [= <-]; right; split; [reflexivity|tauto]].
  destruct (validateAuthorization env (headers request)); cbn [negb];
    [|intros [= <-]; right; split; [reflexivity|tauto]].
  destruct (JS.truthy (queryStringParameters request !! "symbol"));
    cbn [negb]; [|intros [= <-]; right; split; [reflexivity|tauto]].
  destruct (JS.truthy (queryStringParameters request !! "resolution"));
    cbn [negb]; [|intros [= <-]; right; split; [reflexivity|tauto]].
  destruct (mapM (scanSymbol env stringify fetch) symbols) as [scanned|];
    [|by intros [=]].
  intros [= <-]. left. split; [reflexivity|]. split; [reflexivity|].
  eexists. reflexivity.
Qed.

Lemma handler_responses_sample :
  handler sampleEnv sampleStringify sampleFetch sampleRequest
  = Some sampleResponse
  ∧ ((statusCode sampleResponse = 200%Z
      ∧ responseHeaders sampleResponse !! "content-type"
        = Some "application/json; charset=utf8"
      ∧ ∃ results, body sampleResponse = Json (stringifyResults results))
     ∨ (responseHeaders sampleResponse !! "content-type"
        = Some "text/plain; charset=utf8"
        ∧ ((statusCode sampleResponse = 500%Z
            ∧ body sampleResponse = Text "config not setup")
           ∨ (statusCode sampleResponse = 401%Z
              ∧ body sampleResponse = Text "unauthorized")
           ∨ (statusCode sampleResponse = 412%Z
              ∧ body sampleResponse = Text "missing symbol")
           ∨ (statusCode sampleResponse = 412%Z
              ∧ body sampleResponse = Text "missing resolution")))).
Proof.
  split; [vm_compute; reflexivity|].
  apply (handler_responses sampleEnv sampleStringify sampleFetch
           sampleRequest sampleResponse).
  vm_compute. reflexivity.
Defined.

Lemma filter_fmap_sublist {A B} (f : A → B) (p : A → bool) (xs : list A) :
  sublist (f <$> List.filter p xs) (f <$> xs).
Proof.
  induction xs as [|x xs IH]; [constructor|]. simpl.
  destruct (p x); simpl; by constructor.
Qed.

Lemma symbols_NoDup : NoDup symbols.
Proof. apply (bool_decide_unpack _). vm_compute. exact I. Qed.

(** The records collected name the symbols given, in order. *)
Lemma scanned_symbols (env : Env)
    (stringify : list (string * string) → string)
    (fetch : string → option string → option ApiData)
    (syms : list string) (scanned : list ScanResult) :
  mapM (scanSymbol env stringify fetch) syms = Some scanned →
  symbol <$> scanned = syms.
Proof.
  intros Hm. apply mapM_Some in Hm.
  induction Hm as [|s r syms scanned Hs _ IH]; [reflexivity|].
  rewrite fmap_cons. f_equal; [|exact IH].
  by destruct (scanSymbol_Some env stringify fetch s r Hs).
Qed.

(** X14. The records of a 200 response follow the order of the fixed
    list of symbols, and no symbol has two records. *)
Theorem response_follows_symbols (env : Env)
    (stringify : list (string * string) → string)
    (fetch : string → option string → option ApiData)
    (request : Request) (resp : Response) :
  handler env stringify fetch request = Some resp →
  statusCode resp = 200%Z →
  ∃ results,
    body resp = Json (stringifyResults results)
    ∧ sublist (symbol <$> results) symbols
    ∧ NoDup (symbol <$> results).
Proof.
  intros H Hs.
  destruct (handler_200 env stringify fetch request resp H Hs)
    as (scanned & Hm & ->).
  eexists. split; [reflexivity|].
  assert (Hsub : sublist
            (symbol <$> List.filter
               (λ r, negb (length (brokenLevels r) =? 0)%nat) scanned)
            symbols).
  { rewrite <- (scanned_symbols env stringify fetch symbols scanned Hm).
    apply filter_fmap_sublist. }
  split; [exact Hsub|].
  apply (sublist_NoDup _ symbols); first [exact Hsub|apply symbols_NoDup].
Qed.

Lemma response_follows_symbols_sample :
  handler sampleEnv sampleStringify sampleFetch sampleRequest
  = Some sampleResponse
  ∧ statusCode sampleResponse = 200%Z
  ∧ ∃ results,
      body sampleResponse = Json (stringifyResults results)
      ∧ sublist (symbol <$> results) symbols
      ∧ NoDup (symbol <$> results).
Proof.
  split; [vm_compute; reflexivity|]. split; [reflexivity|].
  apply (response_follows_symbols sampleEnv sampleStringify sampleFetch
           sampleRequest sampleResponse);
    [vm_compute; reflexivity|reflexivity].
Defined.

(** X15. The handler reads the upstream only at the quote and the
    support-resistance addresses of the symbols of the list, with
    resolution ['D'] and the Finnhub key: two upstreams that agree on
    those calls give the same outcome. *)
Theorem handler_upstream_calls (env : Env)
    (stringify : list (string * string) → string)
    (fetch1 fetch2 : string → option string → option ApiData)
    (request : Request) :
  (∀ s, s ∈ symbols →
        fetch1 (quoteUrl stringify s) (FINNHUB_AUTH_TOKEN env)
        = fetch2 (quoteUrl stringify s) (FINNHUB_AUTH_TOKEN env)
        ∧ fetch1 (levelsUrl stringify s) (FINNHUB_AUTH_TOKEN env)
          = fetch2 (levelsUrl stringify s) (FINNHUB_AUTH_TOKEN env)) →
  handler env stringify fetch1 request = handler env stringify fetch2 request.
Proof.
  intros Hagree. unfold handler.
  assert (Hm : mapM (scanSymbol env stringify fetch1) symbols
               = mapM (scanSymbol env stringify fetch2) symbols).
  { apply Forall_mapM_ext, Forall_forall. intros s Hs.
    destruct (Hagree s Hs) as [Hq Hl].
    unfold scanSymbol, fetchQuotes, fetchSupportResistance.
    fold (quoteUrl stringify s) (levelsUrl stringify s).
    by rewrite Hq, Hl. }
  by rewrite Hm.
Qed.

Lemma handler_upstream_calls_sample :
  (∀ s, s ∈ symbols →
        sampleFetch (quoteUrl sampleStringify s) (FINNHUB_AUTH_TOKEN sampleEnv)
        = strictFetch (quoteUrl sampleStringify s) (FINNHUB_AUTH_TOKEN sampleEnv)
        ∧ sampleFetch (levelsUrl sampleStringify s) (FINNHUB_AUTH_TOKEN sampleEnv)
          = strictFetch (levelsUrl sampleStringify s)
              (FINNHUB_AUTH_TOKEN sampleEnv))
  ∧ sampleFetch "https://example.org/" None
    ≠ strictFetch "https://example.org/" None
  ∧ handler sampleEnv sampleStringify sampleFetch sampleRequest
    = handler sampleEnv sampleStringify strictFetch sampleRequest.
Proof.
  assert (Hagree : ∀ s, s ∈ symbols →
        sampleFetch (quoteUrl sampleStringify s) (FINNHUB_AUTH_TOKEN sampleEnv)
        = strictFetch (quoteUrl sampleStringify s) (FINNHUB_AUTH_TOKEN sampleEnv)
        ∧ sampleFetch (levelsUrl sampleStringify s) (FINNHUB_AUTH_TOKEN sampleEnv)
          = strictFetch (levelsUrl sampleStringify s)
              (FINNHUB_AUTH_TOKEN sampleEnv)).
  { intros s Hs. unfold symbols in Hs.
    repeat (apply elem_of_cons in Hs as [->|Hs];
            [split; vm_compute; reflexivity|]).
    by apply elem_of_nil in Hs. }
  split; [exact Hagree|]. split; [vm_compute; discriminate|].
  apply (handler_upstream_calls sampleEnv sampleStringify sampleFetch
           strictFetch sampleRequest Hagree).
Defined.

(** X16. Every entry of the output is serialized as an object of three
    members, in this order: [broke: true], then [resistance] or [support]
    with the level, then [closedBroken].  The level is written as it is
    when finite and not zero, as [0] when it is a zero of either sign, and
    as [null] when it is an infinity. *)
Theorem entry_serialization (results : ParsedResults) (out : list LevelBreak)
    (e : LevelBreak) :
  determineLevelBreaks results = Some out →
  e ∈ out →
  ∃ key L b,
    (key = "resistance" ∨ key = "support")
    ∧ levelOf e = Some L
    ∧ stringifyLevelBreak e
      = JObject [("broke", JBool true);
                 (key, match L with
                       | S754_zero _ => JNumber (S754_zero false)
                       | S754_finite _ _ _ => JNumber L
                       | S754_infinity _ | S754_nan => JNull
                       end);
                 ("closedBroken", JBool b)].
Proof.
  intros Hd He.
  destruct (supportResistance results) as [lvls|] eqn:Hl;
    [|unfold determineLevelBreaks in Hd; rewrite Hl in Hd; discriminate].
  destruct (proj1 (determineLevelBreaks_elem results lvls out e Hl Hd) He)
    as (L & _ & Ee & Hb).
  subst e.
  destruct (levelEntry_cases results L)
    as [[_ E]|[(_ & _ & E)|(_ & _ & E)]]; rewrite E in Hb |- *.
  - exists "resistance", L, (SFleb L (quoteC results)).
    split; [by left|]. split; reflexivity.
  - exists "support", L, (SFleb (quoteC results) L).
    split; [by right|]. split; reflexivity.
  - discriminate Hb.
Qed.

Lemma entry_serialization_sample :
  determineLevelBreaks sampleMinusZero = Some [sampleMinusZeroEntry]
  ∧ sampleMinusZeroEntry ∈ [sampleMinusZeroEntry]
  ∧ stringifyLevelBreak sampleMinusZeroEntry
    = JObject [("broke", JBool true);
               ("resistance", JNumber (S754_zero false));
               ("closedBroken", JBool true)]
  ∧ ∃ key L b,
      (key = "resistance" ∨ key = "support")
      ∧ levelOf sampleMinusZeroEntry = Some L
      ∧ stringifyLevelBreak sampleMinusZeroEntry
        = JObject [("broke", JBool true);
                   (key, match L with
                         | S754_zero _ => JNumber (S754_zero false)
                         | S754_finite _ _ _ => JNumber L
                         | S754_infinity _ | S754_nan => JNull
                         end);
                   ("closedBroken", JBool b)].
Proof.
  split; [reflexivity|]. split; [apply list_elem_of_here|].
  split; [reflexivity|].
  apply (entry_serialization sampleMinusZero [sampleMinusZeroEntry]
           sampleMinusZeroEntry);
    [reflexivity|apply list_elem_of_here].
Defined.
